(** * A cache-disabling static file server (server.py)

    Shallow embedding of [server.py] and of the parts of the Python
    standard library it drives: [http.server] (the header buffer of
    [BaseHTTPRequestHandler], [send_error], [SimpleHTTPRequestHandler.send_head]),
    [socketserver] ([TCPServer.__init__], [BaseServer.serve_forever]),
    [posixpath] and [os.chdir].  Library code is embedded from CPython 3.11
    ([Lib/http/server.py], [Lib/socketserver.py], [Lib/posixpath.py]).

    Python [str] and [bytes] values are both modelled by [string]: a [str]
    is read as a sequence of Latin-1 code points (so that
    [encode('latin-1', 'strict')] is the identity), [bytes] as octets. *)

From Stdlib Require Import String Ascii List ZArith Bool Lia DecimalString.
Import ListNotations.
Local Open Scope string_scope.
Local Open Scope Z_scope.

(** ** Python values *)

Definition str := string.
Definition bytes := string.

Definition CR : ascii := "013"%char.
Definition LF : ascii := "010"%char.
Definition DQUOTE : ascii := "034"%char.
Definition CRLF : bytes := String CR (String LF "").

(** [str(n)] and the [%d] conversion, for an [int]. *)
Definition str_of_int (n : Z) : str := NilZero.string_of_int (Z.to_int n).

(** [len(s)]. *)
Definition len (s : string) : Z := Z.of_nat (String.length s).

(** [b"".join(chunks)]. *)
Definition join_bytes (chunks : list bytes) : bytes := String.concat "" chunks.

(** [s.startswith(p)] and [s.endswith(p)]. *)
Definition startswith (s p : string) : bool := String.prefix p s.

Fixpoint endswith (s p : string) : bool :=
  if String.eqb s p then true
  else match s with
       | EmptyString => false
       | String _ s' => endswith s' p
       end.

(** [c.lower()] on a Latin-1 code point: [A-Z] and the accented capitals
    U+00C0..U+00DE (without the multiplication sign U+00D7) move up by 32. *)
Definition lower_ascii (c : ascii) : ascii :=
  let n := nat_of_ascii c in
  if ((65 <=? n)%nat && (n <=? 90)%nat)
     || ((192 <=? n)%nat && (n <=? 222)%nat && negb (n =? 215)%nat)
  then ascii_of_nat (n + 32) else c.

Fixpoint lower (s : str) : str :=
  match s with
  | EmptyString => EmptyString
  | String c s' => String (lower_ascii c) (lower s')
  end.

(** [needle in haystack] for two strings. *)
Fixpoint contains (haystack needle : string) : bool :=
  String.prefix needle haystack ||
  match haystack with
  | EmptyString => false
  | String _ rest => contains rest needle
  end.

(** ** Exceptions and the effect monad *)

Inductive exn : Type :=
| AttributeError (attribute : str)
| NameError (name : str)
| OSError (errno : Z)
| TypeError (message : str)
| KeyboardInterrupt
| SystemExit (code : Z).

(** [isinstance(e, Exception)]: [KeyboardInterrupt] and [SystemExit] derive
    from [BaseException] only. *)
Definition is_Exception (e : exn) : bool :=
  match e with
  | KeyboardInterrupt | SystemExit _ => false
  | _ => true
  end.

(** A computation over a state [S] returns a value, raises an exception, or
    is still [Blocked] waiting for an event of the environment.  The state
    reached is kept in every case. *)
Inductive result (S A : Type) : Type :=
| Ok (a : A) (s : S)
| Raise (e : exn) (s : S)
| Blocked (s : S).
Arguments Ok {S A} a s.
Arguments Raise {S A} e s.
Arguments Blocked {S A} s.

Definition M (S A : Type) : Type := S -> result S A.

Definition ret {S A} (a : A) : M S A := fun s => Ok a s.

Definition bind {S A B} (m : M S A) (k : A -> M S B) : M S B :=
  fun s => match m s with
           | Ok a s' => k a s'
           | Raise e s' => Raise e s'
           | Blocked s' => Blocked s'
           end.

Definition raise {S A} (e : exn) : M S A := fun s => Raise e s.
Definition get {S} : M S S := fun s => Ok s s.
Definition modify {S} (f : S -> S) : M S unit := fun s => Ok tt (f s).

(** [try: m  except <filter>: handler]. *)
Definition try_except {S A} (m : M S A) (filter : exn -> bool)
           (handler : exn -> M S A) : M S A :=
  fun s => match m s with
           | Raise e s' => if filter e then handler e s' else Raise e s'
           | r => r
           end.

(** [try: m  finally: cleanup]; also the shape of a [with] block, whose
    [__exit__] is the cleanup.  A blocked body has not left the block. *)
Definition try_finally {S A} (m : M S A) (cleanup : M S unit) : M S A :=
  fun s => match m s with
           | Ok a s' => bind cleanup (fun _ => ret a) s'
           | Raise e s' => bind cleanup (fun _ => raise e) s'
           | Blocked s' => Blocked s'
           end.

Declare Scope py_scope.
Delimit Scope py_scope with py.
Notation "x <- m ;; k" := (bind m (fun x => k))
  (at level 61, m at next level, right associativity) : py_scope.
Notation "m ;; k" := (bind m (fun _ => k))
  (at level 61, right associativity) : py_scope.
Local Open Scope py_scope.

Definition when {S} (b : bool) (m : M S unit) : M S unit :=
  if b then m else ret tt.

(** ** [posixpath] *)

Module posixpath.

Definition sep : ascii := "/"%char.

(** [s.split('/')]. *)
Fixpoint split (s : str) : list str :=
  match s with
  | EmptyString => [""]
  | String c s' =>
      if Ascii.eqb c sep then "" :: split s'
      else match split s' with
           | w :: ws => String c w :: ws
           | [] => [String c ""]
           end
  end.

(** [s.rstrip('/')]. *)
Fixpoint rstrip_sep (s : str) : str :=
  match s with
  | EmptyString => ""
  | String c s' =>
      let r := rstrip_sep s' in
      if Ascii.eqb c sep && String.eqb r "" then "" else String c r
  end.

(** [s == '/' * len(s)]. *)
Fixpoint all_sep (s : str) : bool :=
  match s with
  | EmptyString => true
  | String c s' => Ascii.eqb c sep && all_sep s'
  end.

(** [p[:p.rfind('/') + 1]]: [p] up to and including its last ['/']. *)
Fixpoint head (p : str) : str :=
  match p with
  | EmptyString => ""
  | String c p' =>
      let h := head p' in
      if Ascii.eqb c sep || negb (String.eqb h "") then String c h else ""
  end.

Definition isabs (s : str) : bool := startswith s "/".

(** [join(a, b)]. *)
Definition join (a b : str) : str :=
  if startswith b "/" then b
  else if String.eqb a "" || endswith a "/" then a ++ b
  else a ++ "/" ++ b.

Definition dirname (p : str) : str :=
  let head := head p in
  if negb (String.eqb head "") && negb (all_sep head)
  then rstrip_sep head else head.

(** One turn of the loop of [normpath] over the components; the end of
    [new_comps] is the top of the stack. *)
Definition normpath_step (initial_slashes : nat) (new_comps : list str)
           (comp : str) : list str :=
  if String.eqb comp "" || String.eqb comp "." then new_comps
  else if negb (String.eqb comp "..")
          || ((initial_slashes =? 0)%nat && (length new_comps =? 0)%nat)
          || (negb (length new_comps =? 0)%nat
              && String.eqb (last new_comps "") "..")
       then (new_comps ++ [comp])%list
       else removelast new_comps.

Fixpoint repeat_sep (n : nat) : str :=
  match n with
  | O => ""
  | S n' => String sep (repeat_sep n')
  end.

Definition normpath (path : str) : str :=
  if String.eqb path "" then "."
  else
    let initial_slashes :=
      if startswith path "/"
      then if startswith path "//" && negb (startswith path "///")
           then 2%nat else 1%nat
      else 0%nat in
    let comps := fold_left (normpath_step initial_slashes) (split path) [] in
    let path := repeat_sep initial_slashes ++ String.concat "/" comps in
    if String.eqb path "" then "." else path.

End posixpath.

(** ** [http.server] *)

Module http_server.

(** What [os.path.isdir], [os.path.isfile], [open(path, 'rb')] followed by
    [os.fstat], and [os.listdir] answer during one request.  [open_rb] and
    [listdir] are [None] where Python raises [OSError]. *)
Record file : Type := {
  data : bytes;
  st_size : Z;
  st_mtime : Z   (* whole seconds, as after [replace(microsecond=0)] *)
}.

Record filesystem : Type := {
  isdir : str -> bool;
  isfile : str -> bool;
  open_rb : str -> option file;
  listdir : str -> option (list str)
}.

Inductive tzinfo : Type := tz_none | tz_utc | tz_other.

Record datetime : Type := {
  timestamp : Z;
  tz : tzinfo
}.

(** The helpers of the library whose result is only passed along: tables,
    formatting of dates and pages, URL and MIME handling. *)
Class Collaborators : Type := {
  (** [BaseHTTPRequestHandler.responses]: code to (phrase, description). *)
  responses : Z -> option (str * str);
  version_string : str;
  (** [date_time_string(timestamp=None)]. *)
  date_time_string : option Z -> str;
  (** The line [log_message] writes to [sys.stderr] for a message. *)
  log_line : str -> str;
  (** [error_message_format % {code, message, explain}], UTF-8 encoded. *)
  error_content : Z -> str -> str -> bytes;
  (** [translate_path], from [self.directory] and the request path. *)
  translate_path : str -> str -> str;
  guess_type : str -> str;
  (** [urllib.parse.urlsplit(self.path).path]. *)
  urlsplit_path : str -> str;
  (** [urlunsplit] of the parts of [self.path] with ['/'] added to the path. *)
  redirect_url : str -> str;
  (** [email.utils.parsedate_to_datetime]; [None] where it raises. *)
  parsedate_to_datetime : str -> option datetime;
  filesystemencoding : str;
  (** [repr(s)] of a string, as [%r] gives it. *)
  repr : str -> str;
  (** The encoded page [list_directory] builds from the sorted names. *)
  directory_page : filesystem -> str -> str -> list str -> bytes
}.

(** The attributes of a request handler instance.  [_headers_buffer] is
    [None] while the attribute does not exist ([hasattr] is false);
    [wfile] holds the octets written to the client so far, [stderr] the
    lines logged. *)
Record handler : Type := {
  fs : filesystem;
  directory : str;
  command : option str;
  path : str;
  request_version : str;
  requestline : str;
  headers : list (str * str);
  close_connection : bool;
  _headers_buffer : option (list bytes);
  wfile : bytes;
  stderr : list str
}.

Definition set_close_connection (b : bool) (h : handler) : handler :=
  {| fs := fs h; directory := directory h; command := command h;
     path := path h; request_version := request_version h;
     requestline := requestline h; headers := headers h;
     close_connection := b; _headers_buffer := _headers_buffer h;
     wfile := wfile h; stderr := stderr h |}.

Definition set_headers_buffer (b : option (list bytes)) (h : handler) : handler :=
  {| fs := fs h; directory := directory h; command := command h;
     path := path h; request_version := request_version h;
     requestline := requestline h; headers := headers h;
     close_connection := close_connection h; _headers_buffer := b;
     wfile := wfile h; stderr := stderr h |}.

Definition set_wfile (w : bytes) (h : handler) : handler :=
  {| fs := fs h; directory := directory h; command := command h;
     path := path h; request_version := request_version h;
     requestline := requestline h; headers := headers h;
     close_connection := close_connection h;
     _headers_buffer := _headers_buffer h;
     wfile := w; stderr := stderr h |}.

Definition set_stderr (l : list str) (h : handler) : handler :=
  {| fs := fs h; directory := directory h; command := command h;
     path := path h; request_version := request_version h;
     requestline := requestline h; headers := headers h;
     close_connection := close_connection h;
     _headers_buffer := _headers_buffer h;
     wfile := wfile h; stderr := l |}.

(** [protocol_version = "HTTP/1.0"]. *)
Definition protocol_version : str := "HTTP/1.0".

(** [self.request_version != 'HTTP/0.9']. *)
Definition sends_headers (h : handler) : bool :=
  negb (String.eqb (request_version h) "HTTP/0.9").

(** The lines waiting in the headers buffer. *)
Definition pending (h : handler) : list bytes :=
  match _headers_buffer h with
  | Some buffer => buffer
  | None => []
  end.

(** [self.wfile.write(data)]. *)
Definition wfile_write (data : bytes) : M handler unit :=
  modify (fun h => set_wfile (wfile h ++ data) h).

(** [if not hasattr(self, '_headers_buffer'): self._headers_buffer = []]
    followed by [self._headers_buffer.append(line)]. *)
Definition buffer_line (line : bytes) : M handler unit :=
  modify (fun h => set_headers_buffer (Some (pending h ++ [line])%list) h).

(** Reading [self._headers_buffer]: [AttributeError] while it is unset. *)
Definition headers_buffer_attr : M handler (list bytes) :=
  fun h => match _headers_buffer h with
           | Some buffer => Ok buffer h
           | None => Raise (AttributeError "_headers_buffer") h
           end.

Section Handler.
Context `{Collaborators}.

Definition log_message (message : str) : M handler unit :=
  modify (fun h => set_stderr (stderr h ++ [log_line message])%list h).

(** [log_request(code)]: ['"%s" %s %s' % (requestline, str(code), '-')]. *)
Definition log_request (code : Z) : M handler unit :=
  h <- get ;;
  log_message (String DQUOTE (requestline h) ++ String DQUOTE " "
               ++ str_of_int code ++ " -").

(** [log_error("code %d, message %s", code, message)]. *)
Definition log_error (code : Z) (message : str) : M handler unit :=
  log_message ("code " ++ str_of_int code ++ ", message " ++ message).

Definition status_line (code : Z) (message : str) : bytes :=
  protocol_version ++ " " ++ str_of_int code ++ " " ++ message ++ CRLF.

Definition header_line (keyword value : str) : bytes :=
  keyword ++ ": " ++ value ++ CRLF.

Definition send_response_only (code : Z) (message : option str) : M handler unit :=
  h <- get ;;
  when (sends_headers h)
    (let message :=
       match message with
       | Some m => m
       | None => match responses code with
                 | Some (phrase, _) => phrase
                 | None => ""
                 end
       end in
     buffer_line (status_line code message)).

Definition send_header (keyword value : str) : M handler unit :=
  h <- get ;;
  when (sends_headers h) (buffer_line (header_line keyword value)) ;;
  when (String.eqb (lower keyword) "connection")
    (if String.eqb (lower value) "close"
     then modify (set_close_connection true)
     else if String.eqb (lower value) "keep-alive"
          then modify (set_close_connection false)
          else ret tt).

Definition flush_headers : M handler unit :=
  h <- get ;;
  match _headers_buffer h with
  | Some buffer =>
      wfile_write (join_bytes buffer) ;;
      modify (set_headers_buffer (Some []))
  | None => ret tt
  end.

(** [BaseHTTPRequestHandler.end_headers]. *)
Definition BaseHTTPRequestHandler_end_headers : M handler unit :=
  h <- get ;;
  when (sends_headers h)
    (buffer <- headers_buffer_attr ;;
     modify (set_headers_buffer (Some (buffer ++ [CRLF])%list)) ;;
     flush_headers).

(** The methods a subclass may override and the library calls through
    [self]: here [end_headers]. *)
Class RequestHandlerClass : Type := {
  end_headers : M handler unit
}.

Definition send_response (code : Z) (message : option str) : M handler unit :=
  log_request code ;;
  send_response_only code message ;;
  send_header "Server" version_string ;;
  send_header "Date" (date_time_string None).

Definition omits_body (code : Z) : bool :=
  negb ((200 <=? code) && negb ((code =? 204) || (code =? 205) || (code =? 304))).

Definition send_error `{RequestHandlerClass}
           (code : Z) (message explain : option str) : M handler unit :=
  let '(shortmsg, longmsg) :=
    match responses code with
    | Some r => r
    | None => ("???", "???")
    end in
  let message := match message with Some m => m | None => shortmsg end in
  let explain := match explain with Some e => e | None => longmsg end in
  log_error code message ;;
  send_response code (Some message) ;;
  send_header "Connection" "close" ;;
  body <- (if omits_body code then ret None
           else let body := error_content code message explain in
                send_header "Content-Type" "text/html;charset=utf-8" ;;
                send_header "Content-Length" (str_of_int (len body)) ;;
                ret (Some body)) ;;
  end_headers ;;
  h <- get ;;
  match body with
  | Some body =>
      when (negb (match command h with
                  | Some c => String.eqb c "HEAD"
                  | None => false
                  end)
            && negb (String.eqb body ""))
        (wfile_write body)
  | None => ret tt
  end.

(** *** [SimpleHTTPRequestHandler] *)

(** [name in self.headers] and [self.headers[name]]: the first header
    whose name matches without regard to case. *)
Fixpoint headers_get (name : str) (hs : list (str * str)) : option str :=
  match hs with
  | [] => None
  | (k, v) :: rest =>
      if String.eqb (lower k) (lower name) then Some v
      else headers_get name rest
  end.

(** The test of [send_head] for answering 304: an [If-Modified-Since]
    header without [If-None-Match], that parses, is naive or in UTC, and is
    not older than the file's last modification. *)
Definition not_modified (h : handler) (f : file) : bool :=
  match headers_get "If-Modified-Since" (headers h),
        headers_get "If-None-Match" (headers h) with
  | Some value, None =>
      match parsedate_to_datetime value with
      | None => false
      | Some ims =>
          match tz ims with
          | tz_other => false
          | _ => st_mtime f <=? timestamp ims
          end
      end
  | _, _ => false
  end.

Definition list_directory `{RequestHandlerClass} (path : str)
  : M handler (option bytes) :=
  h <- get ;;
  match listdir (fs h) path with
  | None =>
      send_error 404 (Some "No permission to list directory") None ;;
      ret None
  | Some names =>
      let encoded :=
        directory_page (fs h) path (http_server.path h) names in
      send_response 200 None ;;
      send_header "Content-type"
                  ("text/html; charset=" ++ filesystemencoding) ;;
      send_header "Content-Length" (str_of_int (len encoded)) ;;
      end_headers ;;
      ret (Some encoded)
  end.

(** [send_head] from [ctype = self.guess_type(path)] on. *)
Definition send_head_file `{RequestHandlerClass} (path : str)
  : M handler (option bytes) :=
  h <- get ;;
  let ctype := guess_type path in
  if endswith path "/"
  then send_error 404 (Some "File not found") None ;; ret None
  else match open_rb (fs h) path with
       | None => send_error 404 (Some "File not found") None ;; ret None
       | Some f =>
           if not_modified h f
           then send_response 304 None ;; end_headers ;; ret None
           else
             send_response 200 None ;;
             send_header "Content-type" ctype ;;
             send_header "Content-Length" (str_of_int (st_size f)) ;;
             send_header "Last-Modified"
                         (date_time_string (Some (st_mtime f))) ;;
             end_headers ;;
             ret (Some (data f))
       end.

(** [send_head]: the value returned stands for the file object, by the
    octets it yields when read. *)
Definition send_head `{RequestHandlerClass} : M handler (option bytes) :=
  h <- get ;;
  let path := translate_path (directory h) (http_server.path h) in
  if isdir (fs h) path
  then
    if negb (endswith (urlsplit_path (http_server.path h)) "/")
    then
      send_response 301 None ;;
      send_header "Location" (redirect_url (http_server.path h)) ;;
      send_header "Content-Length" "0" ;;
      end_headers ;;
      ret None
    else
      match find (isfile (fs h))
                 (map (posixpath.join path) ["index.html"; "index.htm"]) with
      | Some index => send_head_file index
      | None => list_directory path
      end
  else send_head_file path.

(** [copyfile(f, self.wfile)] writes everything [f] yields. *)
Definition do_GET `{RequestHandlerClass} : M handler unit :=
  f <- send_head ;;
  match f with
  | Some content => wfile_write content
  | None => ret tt
  end.

Definition do_HEAD `{RequestHandlerClass} : M handler unit :=
  f <- send_head ;;
  ret tt.

(** [handle_one_request] from [mname = 'do_' + self.command] on, that is
    once [parse_request] has returned true.  [SimpleHTTPRequestHandler]
    has the methods [do_GET] and [do_HEAD]. *)
Definition handle_method `{RequestHandlerClass} : M handler unit :=
  h <- get ;;
  match command h with
  | None => raise (TypeError "can only concatenate str to str")
  | Some c =>
      if String.eqb c "GET" then do_GET
      else if String.eqb c "HEAD" then do_HEAD
      else send_error 501 (Some ("Unsupported method (" ++ repr c ++ ")")) None
  end.

(** What [parse_request] leaves in the handler when it returns true. *)
Record request : Type := {
  req_command : str;
  req_path : str;
  req_version : str;
  req_line : str;
  req_headers : list (str * str)
}.

(** The handler of a connection when [handle_method] starts:
    [self.directory] was taken from [os.getcwd()] by [__init__],
    [close_connection] was set by [parse_request] and, with
    [protocol_version] at HTTP/1.0, is true; nothing was written. *)
Definition parsed (files : filesystem) (cwd : str) (r : request) : handler :=
  {| fs := files; directory := cwd; command := Some (req_command r);
     path := req_path r; request_version := req_version r;
     requestline := req_line r; headers := req_headers r;
     close_connection := true; _headers_buffer := None;
     wfile := ""; stderr := [] |}.

End Handler.
End http_server.

(** ** The process and the operating system *)

Module os.

Inductive syscall : Type :=
| sys_getcwd
| sys_chdir (path : str)
| sys_socket
| sys_bind (host : str) (port : Z)
| sys_listen (backlog : Z)
| sys_close.

(** How the system answers the calls of the process: [None] for success,
    [Some errno] where Python raises [OSError(errno)]. *)
Record kernel : Type := {
  getcwd_errno : option Z;
  chdir_errno : str -> option Z;
  socket_errno : option Z;
  bind_errno : str -> Z -> option Z;
  listen_errno : option Z;
  (** The text the interpreter prints for an exception. *)
  format_exc : exn -> str
}.

Inductive socket_state : Type :=
| no_socket
| unbound
| bound (host : str) (port : Z)
| listening (host : str) (port : Z)
| closed.

(** The state of the running interpreter.  [dunder_file] is the global
    [__file__] of the main module ([None] when undefined); [stdout] and
    [stderr] hold the lines written; [sock] is the state of the socket of
    the server; [sent] collects what each connection was answered;
    [trace] lists the system calls made. *)
Record process : Type := {
  sys : kernel;
  argv : list str;
  environ : list (str * str);
  dunder_file : option str;
  cwd : str;
  stdout : list str;
  stderr : list str;
  sock : socket_state;
  sent : list bytes;
  trace : list syscall
}.

Definition with_cwd (d : str) (w : process) : process :=
  {| sys := sys w; argv := argv w; environ := environ w;
     dunder_file := dunder_file w; cwd := d; stdout := stdout w;
     stderr := stderr w; sock := sock w; sent := sent w;
     trace := trace w |}.

Definition with_stdout (l : list str) (w : process) : process :=
  {| sys := sys w; argv := argv w; environ := environ w;
     dunder_file := dunder_file w; cwd := cwd w; stdout := l;
     stderr := stderr w; sock := sock w; sent := sent w;
     trace := trace w |}.

Definition with_stderr (l : list str) (w : process) : process :=
  {| sys := sys w; argv := argv w; environ := environ w;
     dunder_file := dunder_file w; cwd := cwd w; stdout := stdout w;
     stderr := l; sock := sock w; sent := sent w;
     trace := trace w |}.

Definition with_sock (a : socket_state) (w : process) : process :=
  {| sys := sys w; argv := argv w; environ := environ w;
     dunder_file := dunder_file w; cwd := cwd w; stdout := stdout w;
     stderr := stderr w; sock := a; sent := sent w;
     trace := trace w |}.

Definition with_sent (l : list bytes) (w : process) : process :=
  {| sys := sys w; argv := argv w; environ := environ w;
     dunder_file := dunder_file w; cwd := cwd w; stdout := stdout w;
     stderr := stderr w; sock := sock w; sent := l;
     trace := trace w |}.

Definition with_trace (t : list syscall) (w : process) : process :=
  {| sys := sys w; argv := argv w; environ := environ w;
     dunder_file := dunder_file w; cwd := cwd w; stdout := stdout w;
     stderr := stderr w; sock := sock w; sent := sent w;
     trace := t |}.

(** A system call: recorded, then answered by the kernel. *)
Definition syscall_ (c : syscall) (answer : kernel -> option Z)
  : M process unit :=
  fun w =>
    let w' := with_trace (trace w ++ [c])%list w in
    match answer (sys w) with
    | Some errno => Raise (OSError errno) w'
    | None => Ok tt w'
    end.

Definition getcwd : M process str :=
  syscall_ sys_getcwd getcwd_errno ;;
  w <- get ;;
  ret (cwd w).

(** [os.chdir(path)]: a relative [path] is taken from the current
    directory. *)
Definition chdir (path : str) : M process unit :=
  syscall_ (sys_chdir path) (fun k => chdir_errno k path) ;;
  modify (fun w => with_cwd (posixpath.join (cwd w) path) w).

(** [os.path.abspath(path)]. *)
Definition abspath (path : str) : M process str :=
  path <- (if negb (posixpath.isabs path)
           then cwd <- getcwd ;; ret (posixpath.join cwd path)
           else ret path) ;;
  ret (posixpath.normpath path).

(** [print(line)], to [sys.stdout]. *)
Definition print (line : str) : M process unit :=
  modify (fun w => with_stdout (stdout w ++ [line])%list w).

(** [print(line, file=sys.stderr)]. *)
Definition eprint (line : str) : M process unit :=
  modify (fun w => with_stderr (stderr w ++ [line])%list w).

End os.

(** ** [socket] and [socketserver] *)

Module socket.
Import os.

(** [socket.socket(AF_INET, SOCK_STREAM)]. *)
Definition socket : M process unit :=
  syscall_ sys_socket socket_errno ;;
  modify (with_sock unbound).

Definition bind (address : str * Z) : M process unit :=
  let '(host, port) := address in
  syscall_ (sys_bind host port) (fun k => bind_errno k host port) ;;
  modify (with_sock (bound host port)).

Definition listen (backlog : Z) : M process unit :=
  syscall_ (sys_listen backlog) listen_errno ;;
  modify (fun w => match sock w with
                   | bound host port => with_sock (listening host port) w
                   | _ => w
                   end).

Definition close : M process unit :=
  syscall_ sys_close (fun _ => None) ;;
  modify (with_sock closed).

End socket.

Module socketserver.

(** A client whose request [parse_request] accepts, answered from the
    files it finds; or a connection on which the handler raises (the peer
    resets it, or a signal arrives while it is served).  [peer] is the
    client address as printed. *)
Inductive connection : Type :=
| client (peer : str) (files : http_server.filesystem)
         (r : http_server.request)
| broken (peer : str) (e : exn).

(** What one turn of the loop of [serve_forever] meets: [select] times
    out, or reports the socket readable and [accept] fails or gives a
    connection, or an exception is raised out of [select]. *)
Inductive event : Type :=
| idle
| accept_error (errno : Z)
| accepted (c : connection)
| interrupt (e : exn).

(** The server object; [shutdown_request] is [__shutdown_request]. *)
Record server : Type := {
  server_address : str * Z;
  RequestHandlerClass : http_server.RequestHandlerClass;
  shutdown_request : bool
}.

Definition request_queue_size : Z := 5.
Definition allow_reuse_address : bool := false.
Definition allow_reuse_port : bool := false.

Definition BaseServer_init (address : str * Z)
           (cls : http_server.RequestHandlerClass) : server :=
  {| server_address := address; RequestHandlerClass := cls;
     shutdown_request := false |}.

(** Neither [allow_reuse_address] nor [allow_reuse_port] is set, so no
    option is put on the socket.  The update of [self.server_address] from
    [getsockname()] is left out: the object keeps the address asked for. *)
Definition server_bind (self : server) : M os.process unit :=
  socket.bind (server_address self).

Definition server_activate (self : server) : M os.process unit :=
  socket.listen request_queue_size.

Definition server_close (self : server) : M os.process unit :=
  socket.close.

(** [TCPServer.__init__(server_address, RequestHandlerClass)]. *)
Definition TCPServer (address : str * Z)
           (cls : http_server.RequestHandlerClass) : M os.process server :=
  let self := BaseServer_init address cls in
  socket.socket ;;
  try_except (server_bind self ;; server_activate self)
             (fun _ => true)
             (fun e => server_close self ;; raise e) ;;
  ret self.

Section Serve.
Context `{http_server.Collaborators}.

(** [finish_request]: the handler class is instantiated on the
    connection, which serves it; what it wrote and logged is recorded. *)
Definition finish_request (self : server) (c : connection)
  : M os.process unit :=
  fun w =>
    match c with
    | broken _ e => Raise e w
    | client _ files r =>
        let served h :=
          os.with_sent (os.sent w ++ [http_server.wfile h])%list
            (os.with_stderr (os.stderr w ++ http_server.stderr h)%list w) in
        match @http_server.handle_method _ (RequestHandlerClass self)
                (http_server.parsed files (os.cwd w) r) with
        | Ok _ h => Ok tt (served h)
        | Raise e h => Raise e (served h)
        | Blocked h => Blocked (served h)
        end
    end.

Definition peer_of (c : connection) : str :=
  match c with
  | client peer _ _ => peer
  | broken peer _ => peer
  end.

Definition dashes : str := "----------------------------------------".

Definition handle_error (c : connection) (e : exn) : M os.process unit :=
  os.eprint dashes ;;
  os.eprint ("Exception occurred during processing of request from "
             ++ peer_of c) ;;
  w <- get ;;
  os.eprint (os.format_exc (os.sys w) e) ;;
  os.eprint dashes.

(** [process_request]; [shutdown_request(request)] closes the connection
    and leaves the process as it is. *)
Definition process_request (self : server) (c : connection)
  : M os.process unit :=
  finish_request self c.

(** [_handle_request_noblock] once [get_request] has returned;
    [verify_request] is always true. *)
Definition handle_request_noblock (self : server) (c : connection)
  : M os.process unit :=
  try_except (process_request self c) is_Exception (handle_error c).

(** The loop of [serve_forever], one event for each return of [select].
    With no event left the process is blocked in [select]. *)
Fixpoint serve_loop (self : server) (events : list event)
  : M os.process unit :=
  if shutdown_request self then ret tt
  else match events with
       | [] => fun w => Blocked w
       | ev :: rest =>
           (if shutdown_request self then ret tt
            else match ev with
                 | idle => ret tt
                 | accept_error _ => ret tt
                 | accepted c => handle_request_noblock self c
                 | interrupt e => raise e
                 end) ;;
           serve_loop self rest
       end.

(** [serve_forever]; its [finally] clause resets [__shutdown_request] and
    sets an event of the object, which nothing reads afterwards. *)
Definition serve_forever (self : server) (events : list event)
  : M os.process unit :=
  serve_loop self events.

End Serve.
End socketserver.

(** ** [server.py] *)

Import http_server.

Section Program.
Context `{Collaborators}.

Definition NoCacheHTTPRequestHandler_end_headers : M handler unit :=
  send_header "Cache-Control" "no-cache, no-store, must-revalidate" ;;
  send_header "Pragma" "no-cache" ;;
  send_header "Expires" "0" ;;
  BaseHTTPRequestHandler_end_headers.

Definition SimpleHTTPRequestHandler : RequestHandlerClass :=
  {| end_headers := BaseHTTPRequestHandler_end_headers |}.

Definition NoCacheHTTPRequestHandler : RequestHandlerClass :=
  {| end_headers := NoCacheHTTPRequestHandler_end_headers |}.

Definition PORT : Z := 8000.

(** Reading the global [__file__]. *)
Definition file_global : M os.process str :=
  fun w => match os.dunder_file w with
           | Some f => Ok f w
           | None => Raise (NameError "__file__") w
           end.

(** The statements of the module, against the events the serve loop
    meets.  Lines printed are given by their UTF-8 octets. *)
Definition main (events : list socketserver.event) : M os.process unit :=
  file <- file_global ;;
  here <- os.abspath file ;;
  os.chdir (posixpath.dirname here) ;;
  httpd <- socketserver.TCPServer ("", PORT) NoCacheHTTPRequestHandler ;;
  try_finally
    (os.print ("🚀 Servidor iniciado en puerto " ++ str_of_int PORT) ;;
     os.print ("📱 Accede a: http://localhost:" ++ str_of_int PORT) ;;
     os.print "🔄 Headers anti-caché activados para desarrollo" ;;
     socketserver.serve_forever httpd events)
    (socketserver.server_close httpd).

(** The interpreter running the script: it is still [running], or has
    [exited]; an exception nobody caught is printed to [stderr]. *)
Inductive status : Type :=
| running
| exited (code : Z).

Definition exit_code (e : exn) : Z :=
  match e with
  | SystemExit code => code
  | KeyboardInterrupt => 130
  | _ => 1
  end.

Definition python (events : list socketserver.event) (w : os.process)
  : status * os.process :=
  match main events w with
  | Ok _ w' => (exited 0, w')
  | Raise e w' =>
      (exited (exit_code e),
       match e with
       | SystemExit _ => w'
       | _ => os.with_stderr (os.stderr w' ++ [os.format_exc (os.sys w') e])%list w'
       end)
  | Blocked w' => (running, w')
  end.

End Program.

(** ** Vocabulary of the statements *)

(** *** Responses *)

(** The three header lines [NoCacheHTTPRequestHandler.end_headers] sends. *)
Definition anti_cache : list bytes :=
  [header_line "Cache-Control" "no-cache, no-store, must-revalidate";
   header_line "Pragma" "no-cache";
   header_line "Expires" "0"].

(** The handler after a message was logged. *)
Definition logged (message : str) `{Collaborators} (h : handler) : handler :=
  set_stderr (stderr h ++ [log_line message])%list h.

(** The handler after header lines were sent to the buffer: they are kept
    unless the request is an HTTP/0.9 one. *)
Definition buffered (lines : list bytes) (h : handler) : handler :=
  if sends_headers h
  then set_headers_buffer (Some (pending h ++ lines)%list) h
  else h.

(** The handler after [end_headers] of a class that adds the lines [extra]
    to the block: the buffer, [extra] and the blank line are written out. *)
Definition finalized (extra : list bytes) (h : handler) : handler :=
  if sends_headers h
  then set_headers_buffer (Some [])
         (set_wfile (wfile h ++ join_bytes (pending h ++ extra ++ [CRLF])%list) h)
  else h.

(** A handler class whose [end_headers] finalizes the block with [extra],
    wherever the buffer exists when headers are sent at all. *)
Definition finalizes_with (cls : RequestHandlerClass) (extra : list bytes)
  : Prop :=
  forall h : handler,
    (sends_headers h = true -> _headers_buffer h <> None) ->
    @end_headers cls h = Ok tt (finalized extra h).

(** The octets of a response: the header block, closed by [extra] and the
    blank line, then the body; an HTTP/0.9 request gets the body alone. *)
Definition response (version : str) (block extra : list bytes) (body : bytes)
  : bytes :=
  (if negb (String.eqb version "HTTP/0.9")
   then join_bytes (block ++ extra ++ [CRLF])%list
   else "") ++ body.

(** The first lines of every block [send_response] starts. *)
Definition response_head `{Collaborators} (code : Z) (message : str)
  : list bytes :=
  [status_line code message;
   header_line "Server" version_string;
   header_line "Date" (date_time_string None)].

Definition phrase `{Collaborators} (code : Z) : str :=
  match responses code with
  | Some (phrase, _) => phrase
  | None => ""
  end.

(** *** What the paths of the handler send *)

(** What a handler has written once a response with the header lines
    [block] and the body [body] went out through a class that closes the
    block with [extra]. *)
Definition emitted (h : handler) (block extra : list bytes) (body : bytes)
  : bytes :=
  wfile h
  ++ (if sends_headers h
      then join_bytes (pending h ++ block ++ extra ++ [CRLF])%list
      else "")
  ++ body.

Section Sent.
Context `{Collaborators}.

Definition error_message (code : Z) (message : option str) : str :=
  match message with
  | Some m => m
  | None => match responses code with
            | Some (shortmsg, _) => shortmsg
            | None => "???"
            end
  end.

Definition error_page (code : Z) (message explain : option str) : bytes :=
  error_content code (error_message code message)
    (match explain with
     | Some e => e
     | None => match responses code with
               | Some (_, longmsg) => longmsg
               | None => "???"
               end
     end).

(** The header lines of an error response. *)
Definition error_block (code : Z) (message explain : option str)
  : list bytes :=
  (response_head code (error_message code message)
   ++ [header_line "Connection" "close"]
   ++ (if omits_body code then []
       else [header_line "Content-Type" "text/html;charset=utf-8";
             header_line "Content-Length"
               (str_of_int (len (error_page code message explain)))]))%list.

(** The body of an error response: none for a HEAD request. *)
Definition error_body (h : handler) (code : Z) (message explain : option str)
  : bytes :=
  if omits_body code then ""
  else match command h with
       | Some c => if String.eqb c "HEAD" then ""
                   else error_page code message explain
       | None => error_page code message explain
       end.

(** The header lines of a file served with status 200. *)
Definition file_block (path : str) (f : file) : list bytes :=
  (response_head 200 (phrase 200)
   ++ [header_line "Content-type" (guess_type path);
       header_line "Content-Length" (str_of_int (st_size f));
       header_line "Last-Modified" (date_time_string (Some (st_mtime f)))])%list.

(** The header lines of a directory listing. *)
Definition listing_block (page : bytes) : list bytes :=
  (response_head 200 (phrase 200)
   ++ [header_line "Content-type"
                   ("text/html; charset=" ++ filesystemencoding)%string;
       header_line "Content-Length" (str_of_int (len page))])%list.

(** The header lines of the redirection to a directory. *)
Definition redirect_block (path : str) : list bytes :=
  (response_head 301 (phrase 301)
   ++ [header_line "Location" (redirect_url path);
       header_line "Content-Length" "0"])%list.

(** What a computation of the handler sends does not depend on the class
    but for the lines its [end_headers] adds. *)
Definition sends {A} (m : RequestHandlerClass -> M handler A) (h : handler)
           (r : A) (block : list bytes) (body : bytes) : Prop :=
  forall cls extra, finalizes_with cls extra ->
    exists h', m cls h = Ok r h' /\ wfile h' = emitted h block extra body.

End Sent.

(** *** Paths *)

(** A directory given by its components below the root. *)
Definition render (components : list str) : str :=
  "/" ++ String.concat "/" components.

(** The names of a list, each followed by ['/']. *)
Fixpoint slashed (names : list str) : str :=
  match names with
  | [] => ""
  | d :: rest => d ++ "/" ++ slashed rest
  end.

Fixpoint no_sep (s : str) : bool :=
  match s with
  | EmptyString => true
  | String c s' => negb (Ascii.eqb c posixpath.sep) && no_sep s'
  end.

(** A name of a file or directory: not empty, without ['/'], and neither
    ['.'] nor ['..']. *)
Definition is_name (s : str) : bool :=
  negb (String.eqb s "") && no_sep s
  && negb (String.eqb s ".") && negb (String.eqb s "..").

(** How the script was named when it was started: by an absolute path, or
    by a path relative to the directory the process was launched from. *)
Inductive invocation : Type :=
| by_absolute_path (dir : list str) (name : str)
| by_relative_path (dir : list str) (name : str).

Definition names_of (i : invocation) : list str :=
  match i with
  | by_absolute_path dir name => (dir ++ [name])%list
  | by_relative_path dir name => (dir ++ [name])%list
  end.

(** The value of [__file__]. *)
Definition file_of (i : invocation) : str :=
  match i with
  | by_absolute_path dir name => render (dir ++ [name])
  | by_relative_path dir name => String.concat "/" (dir ++ [name])
  end.

(** The directory that contains the script, for a process launched from
    the directory [launch]. *)
Definition script_directory (launch : list str) (i : invocation) : list str :=
  match i with
  | by_absolute_path dir _ => dir
  | by_relative_path dir _ => (launch ++ dir)%list
  end.

(** *** The serve loop *)

(** An event after which the loop goes on: anything but an exception out
    of [select], or one that is not an [Exception] out of a handler. *)
Definition survivable (ev : socketserver.event) : bool :=
  match ev with
  | socketserver.interrupt _ => false
  | socketserver.accepted (socketserver.broken _ e) => is_Exception e
  | _ => true
  end.

Definition is_client (ev : socketserver.event) : bool :=
  match ev with
  | socketserver.accepted (socketserver.client _ _ _) => true
  | _ => false
  end.

(** What serving leaves alone in the process: everything but [sent] and
    [stderr]. *)
Definition same_process (w w' : os.process) : Prop :=
  os.sys w' = os.sys w /\ os.cwd w' = os.cwd w
  /\ os.stdout w' = os.stdout w /\ os.sock w' = os.sock w
  /\ os.trace w' = os.trace w.

(** The state a computation ends in. *)
Definition final {S A} (r : result S A) : S :=
  match r with
  | Ok _ s => s
  | Raise _ s => s
  | Blocked s => s
  end.

(** The directory [main] changes to, from [__file__] and the directory of
    the launch. *)
Definition target (launch file : str) : str :=
  posixpath.dirname
    (posixpath.normpath
       (if posixpath.isabs file then file else posixpath.join launch file)).

(** The lines [main] prints. *)
Definition banner : list str :=
  ["🚀 Servidor iniciado en puerto 8000";
   "📱 Accede a: http://localhost:8000";
   "🔄 Headers anti-caché activados para desarrollo"].

(** The process once the three lines are printed. *)
Definition announced (w : os.process) : os.process :=
  os.with_stdout (os.stdout w ++ banner)%list w.

(** *** Startup *)

Section Startup.
Context `{Collaborators}.

(** The statements of [main] up to the construction of the server. *)
Definition startup : M os.process socketserver.server :=
  file <- file_global ;;
  here <- os.abspath file ;;
  os.chdir (posixpath.dirname here) ;;
  socketserver.TCPServer ("", PORT) NoCacheHTTPRequestHandler.

(** The [with] block of [main]. *)
Definition serving (httpd : socketserver.server)
           (events : list socketserver.event) : M os.process unit :=
  try_finally
    (os.print ("🚀 Servidor iniciado en puerto " ++ str_of_int PORT) ;;
     os.print ("📱 Accede a: http://localhost:" ++ str_of_int PORT) ;;
     os.print "🔄 Headers anti-caché activados para desarrollo" ;;
     socketserver.serve_forever httpd events)
    (socketserver.server_close httpd).

End Startup.

(** Where startup can fail: resolving the directory of the script
    ([__file__] undefined, or [getcwd] failing for a relative one),
    entering it ([chdir]), opening the socket, binding it (port in use,
    permission denied), or activating it ([listen]). *)
Inductive stage : Type :=
| resolving
| entering
| opening
| binding
| activating.

(** The first failure of startup, from the answers of the system. *)
Definition startup_failure (w : os.process) : option (stage * exn) :=
  match os.dunder_file w with
  | None => Some (resolving, NameError "__file__")
  | Some file =>
      match (if posixpath.isabs file then None
             else os.getcwd_errno (os.sys w)) with
      | Some errno => Some (resolving, OSError errno)
      | None =>
          match os.chdir_errno (os.sys w) (target (os.cwd w) file) with
          | Some errno => Some (entering, OSError errno)
          | None =>
              match os.socket_errno (os.sys w) with
              | Some errno => Some (opening, OSError errno)
              | None =>
                  match os.bind_errno (os.sys w) "" PORT with
                  | Some errno => Some (binding, OSError errno)
                  | None =>
                      match os.listen_errno (os.sys w) with
                      | Some errno => Some (activating, OSError errno)
                      | None => None
                      end
                  end
              end
          end
      end
  end.

(** The system calls of startup up to a stage, that stage failing. *)
Definition calls_until (s : stage) (launch file : str) : list os.syscall :=
  ((if posixpath.isabs file then [] else [os.sys_getcwd])
   ++ match s with
      | resolving => []
      | entering => [os.sys_chdir (target launch file)]
      | opening => [os.sys_chdir (target launch file); os.sys_socket]
      | binding => [os.sys_chdir (target launch file); os.sys_socket;
                    os.sys_bind "" PORT; os.sys_close]
      | activating => [os.sys_chdir (target launch file); os.sys_socket;
                       os.sys_bind "" PORT; os.sys_listen 5; os.sys_close]
      end)%list.

(** Whether the directory was entered before the stage. *)
Definition entered (s : stage) : bool :=
  match s with
  | resolving | entering => false
  | _ => true
  end.

(** What startup leaves alone in the process. *)
Definition untouched (w w' : os.process) : Prop :=
  os.sys w' = os.sys w /\ os.stdout w' = os.stdout w
  /\ os.stderr w' = os.stderr w /\ os.sent w' = os.sent w.

(** The same process, started with other arguments and another
    environment. *)
Definition relaunched (args : list str) (env : list (str * str))
           (w : os.process) : os.process :=
  {| os.sys := os.sys w; os.argv := args; os.environ := env;
     os.dunder_file := os.dunder_file w; os.cwd := os.cwd w;
     os.stdout := os.stdout w; os.stderr := os.stderr w;
     os.sock := os.sock w; os.sent := os.sent w; os.trace := os.trace w |}.

(** The system calls of a startup that succeeds. *)
Definition calls_of_startup (launch file : str) : list os.syscall :=
  ((if posixpath.isabs file then [] else [os.sys_getcwd])
   ++ [os.sys_chdir (target launch file); os.sys_socket;
       os.sys_bind "" PORT; os.sys_listen 5])%list.

(** ** Fixtures: one installation, for the concrete runs *)

Module Example.

Definition collaborators : Collaborators :=
  {| responses := fun code =>
       if code =? 200 then Some ("OK", "Request fulfilled, document follows")
       else if code =? 304
            then Some ("Not Modified", "Document has not changed since given time")
       else if code =? 404
            then Some ("Not Found", "Nothing matches the given URI")
       else if code =? 501
            then Some ("Not Implemented", "Server does not support this operation")
       else None;
     version_string := "SimpleHTTP/0.6 Python/3.11.2";
     date_time_string := fun _ => "Thu, 01 Jan 1970 00:00:00 GMT";
     log_line := fun message => "127.0.0.1 - - [01/Jan/1970 00:00:00] " ++ message;
     error_content := fun code message explain =>
       "<p>Error code: " ++ str_of_int code ++ "</p><p>Message: "
       ++ message ++ ".</p>";
     translate_path := fun directory path => directory ++ path;
     guess_type := fun _ => "text/html";
     urlsplit_path := fun path => path;
     redirect_url := fun path => path ++ "/";
     parsedate_to_datetime := fun _ => Some {| timestamp := 2000; tz := tz_utc |};
     filesystemencoding := "utf-8";
     repr := fun s => "'" ++ s ++ "'";
     directory_page := fun _ _ _ names => String.concat " " names |}.

Definition index_html : file :=
  {| data := "<h1>XRP</h1>"; st_size := 12; st_mtime := 1000 |}.

(** A root [/srv/xrp] that holds [index.html] and nothing else. *)
Definition files : filesystem :=
  {| isdir := fun p => String.eqb p "/srv/xrp" || String.eqb p "/srv/xrp/";
     isfile := fun p => String.eqb p "/srv/xrp/index.html";
     open_rb := fun p =>
       if String.eqb p "/srv/xrp/index.html" then Some index_html else None;
     listdir := fun p =>
       if String.eqb p "/srv/xrp" || String.eqb p "/srv/xrp/"
       then Some ["index.html"] else None |}.

Definition get_index : request :=
  {| req_command := "GET"; req_path := "/index.html";
     req_version := "HTTP/1.1"; req_line := "GET /index.html HTTP/1.1";
     req_headers := [("Host", "localhost:8000")] |}.

(** The same request, revalidating a copy the client holds. *)
Definition get_index_conditional : request :=
  {| req_command := "GET"; req_path := "/index.html";
     req_version := "HTTP/1.1"; req_line := "GET /index.html HTTP/1.1";
     req_headers := [("Host", "localhost:8000");
                     ("If-Modified-Since", "Thu, 01 Jan 1970 00:33:20 GMT")] |}.

Definition get_missing : request :=
  {| req_command := "GET"; req_path := "/nonexistent.html";
     req_version := "HTTP/1.1"; req_line := "GET /nonexistent.html HTTP/1.1";
     req_headers := [] |}.

(** The request line [GET /nonexistent.html]: with two words only,
    [parse_request] leaves [request_version] at [default_request_version]. *)
Definition get_missing_http09 : request :=
  {| req_command := "GET"; req_path := "/nonexistent.html";
     req_version := "HTTP/0.9"; req_line := "GET /nonexistent.html";
     req_headers := [] |}.

(** The request line [GET /index.html], of the same kind. *)
Definition get_index_http09 : request :=
  {| req_command := "GET"; req_path := "/index.html";
     req_version := "HTTP/0.9"; req_line := "GET /index.html";
     req_headers := [] |}.

Definition traceback (e : exn) : str :=
  match e with
  | OSError errno => "OSError: [Errno " ++ str_of_int errno ++ "]"
  | NameError name => "NameError: name '" ++ name ++ "' is not defined"
  | AttributeError a => "AttributeError: " ++ a
  | TypeError m => "TypeError: " ++ m
  | KeyboardInterrupt => "KeyboardInterrupt"
  | SystemExit _ => ""
  end.

(** A system on which every call succeeds. *)
Definition willing : os.kernel :=
  {| os.getcwd_errno := None; os.chdir_errno := fun _ => None;
     os.socket_errno := None; os.bind_errno := fun _ _ => None;
     os.listen_errno := None; os.format_exc := traceback |}.

(** A system on which port 8000 is taken: [bind] fails with EADDRINUSE. *)
Definition port_taken : os.kernel :=
  {| os.getcwd_errno := None; os.chdir_errno := fun _ => None;
     os.socket_errno := None;
     os.bind_errno := fun _ port => if port =? 8000 then Some 98 else None;
     os.listen_errno := None; os.format_exc := traceback |}.

(** [python3 /srv/xrp/server.py], typed in [/home/dev]. *)
Definition launched (k : os.kernel) : os.process :=
  {| os.sys := k; os.argv := ["/srv/xrp/server.py"];
     os.environ := [("PORT", "9000")];
     os.dunder_file := Some "/srv/xrp/server.py"; os.cwd := "/home/dev";
     os.stdout := []; os.stderr := []; os.sock := os.no_socket;
     os.sent := []; os.trace := [] |}.

(** The answer of [NoCacheHTTPRequestHandler] to a request, served from
    [/srv/xrp]. *)
Definition served (r : request) : result handler unit :=
  @handle_method collaborators NoCacheHTTPRequestHandler
    (parsed files "/srv/xrp" r).

(** A client that connects and sends a request. *)
Definition one_client (r : request) : socketserver.event :=
  socketserver.accepted (socketserver.client "('127.0.0.1', 50000)" files r).

(** The script, run on a system. *)
Definition run (k : os.kernel) (events : list socketserver.event)
  : status * os.process :=
  @python collaborators events (launched k).

End Example.

(** ** Vocabulary of the further statements *)

(** The same request, made with another method. *)
Definition with_command (c : str) (r : request) : request :=
  {| req_command := c; req_path := req_path r; req_version := req_version r;
     req_line := req_line r; req_headers := req_headers r |}.

Section Answers.
Context `{Collaborators}.

(** The server [main] makes: [httpd]. *)
Definition httpd : socketserver.server :=
  socketserver.BaseServer_init ("", PORT) NoCacheHTTPRequestHandler.

(** What [NoCacheHTTPRequestHandler] writes to a client whose request
    [parse_request] accepts, serving from the directory [cwd]. *)
Definition answer (cwd : str) (files : filesystem) (r : request) : bytes :=
  wfile (final (@handle_method _ NoCacheHTTPRequestHandler
                  (parsed files cwd r))).

(** The answers to the clients among the events, in their order. *)
Fixpoint answers (cwd : str) (events : list socketserver.event)
  : list bytes :=
  match events with
  | [] => []
  | socketserver.accepted (socketserver.client _ files r) :: rest =>
      answer cwd files r :: answers cwd rest
  | _ :: rest => answers cwd rest
  end.

(** The line of the access log for a request answered with [code]. *)
Definition access_line (requestline : str) (code : Z) : str :=
  log_line (String DQUOTE requestline ++ String DQUOTE " "
            ++ str_of_int code ++ " -").

(** What [handle_error] prints for a connection whose handler raised. *)
Definition error_report (k : os.kernel) (peer : str) (e : exn) : list str :=
  [socketserver.dashes;
   "Exception occurred during processing of request from " ++ peer;
   os.format_exc k e;
   socketserver.dashes].

(** What a computation of the handler sends for a request does not depend
    on the method, but for the page of an error, which HEAD leaves out. *)
Definition sends_by_command {A}
           (m : RequestHandlerClass -> M handler A)
           (files : filesystem) (cwd : str) (r : request)
           (ret : A) (block : list bytes) (page : bytes) : Prop :=
  forall c cls extra, finalizes_with cls extra ->
    exists h',
      m cls (parsed files cwd (with_command c r)) = Ok ret h'
      /\ wfile h' = response (req_version r) block extra
                      (if String.eqb c "HEAD" then "" else page).

(** A computation of the handler answers with a status and logs it: the
    block it sends starts with the status line of [code], and the last
    line it logs is the access line of [code]. *)
Definition answered {A} (m : M handler A) (extra : list bytes)
           (h : handler) (r : A) (code : Z) : Prop :=
  exists message rest body notes h',
    m h = Ok r h'
    /\ wfile h' = emitted h (status_line code message :: rest) extra body
    /\ stderr h'
       = (stderr h ++ notes ++ [access_line (requestline h) code])%list.

End Answers.

(** A component of a path as typed: a name, ['.'] or ['..']. *)
Definition is_step (s : str) : bool :=
  is_name s || String.eqb s "." || String.eqb s "..".

(** Following a component from a directory given by its names: ['.']
    stays, ['..'] goes to the parent (the root is its own), a name goes
    down. *)
Definition walk (from : list str) (step : str) : list str :=
  if String.eqb step "." then from
  else if String.eqb step ".." then removelast from
  else (from ++ [step])%list.

Definition resolve (from : list str) (steps : list str) : list str :=
  fold_left walk steps from.

(** ** Fixtures: a site with a directory *)

Module Site.

(** The root of [Example], with a directory [docs] that holds [notes.txt]
    and no index. *)
Definition files : filesystem :=
  {| isdir := fun p =>
       isdir Example.files p
       || String.eqb p "/srv/xrp/docs" || String.eqb p "/srv/xrp/docs/";
     isfile := fun p =>
       isfile Example.files p || String.eqb p "/srv/xrp/docs/notes.txt";
     open_rb := open_rb Example.files;
     listdir := fun p =>
       if String.eqb p "/srv/xrp/docs" || String.eqb p "/srv/xrp/docs/"
       then Some ["notes.txt"] else listdir Example.files p |}.

Definition get (path : str) : request :=
  {| req_command := "GET"; req_path := path; req_version := "HTTP/1.1";
     req_line := "GET " ++ path ++ " HTTP/1.1"; req_headers := [] |}.

Definition post_index : request :=
  {| req_command := "POST"; req_path := "/index.html";
     req_version := "HTTP/1.1"; req_line := "POST /index.html HTTP/1.1";
     req_headers := [] |}.

(** A script started by its absolute path from [/home/dev]. *)
Definition started : os.process := Example.launched Example.willing.

(** The script started as [file] from [/home/dev]. *)
Definition started_as (file : str) : os.process :=
  {| os.sys := Example.willing; os.argv := [file]; os.environ := [];
     os.dunder_file := Some file; os.cwd := "/home/dev";
     os.stdout := []; os.stderr := []; os.sock := os.no_socket;
     os.sent := []; os.trace := [] |}.

(** A connection the peer resets while it is served. *)
Definition reset : socketserver.event :=
  socketserver.accepted
    (socketserver.broken "('127.0.0.1', 50001)" (OSError 104)).

End Site.

(** * Proofs *)

(** ** The monad *)

Lemma bind_Ok {S A B} (m : M S A) (k : A -> M S B) (s s' : S) (a : A) :
  m s = Ok a s' -> bind m k s = k a s'.
Proof. unfold bind. intros ->. reflexivity. Qed.

Lemma bind_Raise {S A B} (m : M S A) (k : A -> M S B) (s s' : S) (e : exn) :
  m s = Raise e s' -> bind m k s = Raise e s'.
Proof. unfold bind. intros ->. reflexivity. Qed.

Lemma bind_get {S B} (k : S -> M S B) (s : S) : bind get k s = k s s.
Proof. reflexivity. Qed.

Lemma bind_ret {S A B} (a : A) (k : A -> M S B) (s : S) :
  bind (ret a) k s = k a s.
Proof. reflexivity. Qed.

Lemma bind_modify {S B} (f : S -> S) (k : unit -> M S B) (s : S) :
  bind (modify f) k s = k tt (f s).
Proof. reflexivity. Qed.

Lemma bind_assoc {S A B C} (m : M S A) (f : A -> M S B) (g : B -> M S C)
      (s : S) :
  bind (bind m f) g s = bind m (fun a => bind (f a) g) s.
Proof. unfold bind. destruct (m s); reflexivity. Qed.

(** ** Strings *)

Lemma append_nil_r (s : string) : s ++ "" = s.
Proof. induction s as [|c s IH]; simpl; [reflexivity | now rewrite IH]. Qed.

Lemma append_assoc (a b c : string) : (a ++ b) ++ c = a ++ (b ++ c).
Proof. induction a as [|x a IH]; simpl; [reflexivity | now rewrite IH]. Qed.

Lemma join_bytes_cons (x : bytes) (l : list bytes) :
  join_bytes (x :: l) = x ++ join_bytes l.
Proof.
  unfold join_bytes. destruct l as [|y l]; simpl.
  - now rewrite append_nil_r.
  - reflexivity.
Qed.

Lemma join_bytes_app (l1 l2 : list bytes) :
  join_bytes (l1 ++ l2) = join_bytes l1 ++ join_bytes l2.
Proof.
  induction l1 as [|x l1 IH].
  - reflexivity.
  - rewrite <- app_comm_cons, !join_bytes_cons, IH, append_assoc. reflexivity.
Qed.

Lemma length_append (a b : string) :
  String.length (a ++ b) = (String.length a + String.length b)%nat.
Proof. induction a as [|c a IH]; simpl; [reflexivity | now rewrite IH]. Qed.

(** ** The header buffer *)

Section HeaderBuffer.
Context `{Collaborators}.

Lemma sends_headers_buffered lines h :
  sends_headers (buffered lines h) = sends_headers h.
Proof. unfold buffered. destruct (sends_headers h) eqn:E; [|exact E]. exact E. Qed.

Lemma buffered_buffered l1 l2 h :
  buffered l2 (buffered l1 h) = buffered (l1 ++ l2) h.
Proof.
  unfold buffered. destruct (sends_headers h) eqn:E.
  - change (sends_headers (set_headers_buffer (Some (pending h ++ l1)%list) h))
      with (sends_headers h).
    rewrite E. unfold set_headers_buffer, pending. simpl.
    now rewrite app_assoc.
  - now rewrite E.
Qed.

Lemma send_response_only_eq code message h :
  send_response_only code message h =
  Ok tt (buffered [status_line code (match message with
                                     | Some m => m
                                     | None => phrase code
                                     end)] h).
Proof.
  unfold send_response_only, buffered, phrase. rewrite bind_get.
  destruct (sends_headers h); reflexivity.
Qed.

Lemma send_header_eq keyword value h :
  String.eqb (lower keyword) "connection" = false ->
  send_header keyword value h = Ok tt (buffered [header_line keyword value] h).
Proof.
  intros E. unfold send_header, buffered. rewrite bind_get, E.
  destruct (sends_headers h); reflexivity.
Qed.

Lemma send_header_connection_close h :
  send_header "Connection" "close" h =
  Ok tt (set_close_connection true (buffered [header_line "Connection" "close"] h)).
Proof.
  unfold send_header, buffered. rewrite bind_get.
  destruct (sends_headers h); reflexivity.
Qed.

End HeaderBuffer.

Section EndHeaders.
Context `{Collaborators}.

Lemma flush_headers_eq h buffer :
  _headers_buffer h = Some buffer ->
  flush_headers h =
  Ok tt (set_headers_buffer (Some []) (set_wfile (wfile h ++ join_bytes buffer) h)).
Proof.
  intros E. unfold flush_headers. rewrite bind_get, E. reflexivity.
Qed.

(** [BaseHTTPRequestHandler.end_headers] fails only when headers are to be
    sent and the buffer was never created. *)
Lemma base_end_headers_eq h :
  (sends_headers h = true -> _headers_buffer h <> None) ->
  BaseHTTPRequestHandler_end_headers h = Ok tt (finalized [] h).
Proof.
  intros Hb. unfold BaseHTTPRequestHandler_end_headers, finalized.
  rewrite bind_get. destruct (sends_headers h) eqn:E; [|reflexivity].
  specialize (Hb eq_refl). unfold when, headers_buffer_attr, pending.
  destruct (_headers_buffer h) as [buffer|] eqn:Eb; [|congruence].
  unfold bind at 1. rewrite Eb. rewrite bind_modify.
  erewrite flush_headers_eq by reflexivity. reflexivity.
Qed.

Lemma base_end_headers_unset h :
  sends_headers h = true -> _headers_buffer h = None ->
  BaseHTTPRequestHandler_end_headers h = Raise (AttributeError "_headers_buffer") h.
Proof.
  intros E Eb. unfold BaseHTTPRequestHandler_end_headers.
  rewrite bind_get, E. unfold when, headers_buffer_attr, bind. now rewrite Eb.
Qed.

Lemma finalized_buffered extra lines h :
  finalized extra (buffered lines h) = finalized (lines ++ extra) h.
Proof.
  unfold finalized. rewrite sends_headers_buffered. unfold buffered.
  destruct (sends_headers h) eqn:E; [|reflexivity].
  unfold set_headers_buffer, set_wfile, pending. simpl.
  now rewrite <- !app_assoc.
Qed.

Lemma buffered_ready line lines h :
  sends_headers (buffered (line :: lines) h) = true ->
  _headers_buffer (buffered (line :: lines) h) <> None.
Proof.
  rewrite sends_headers_buffered. unfold buffered. intros ->. discriminate.
Qed.

(** The override: three [send_header] calls, then the inherited method;
    it never fails, as [send_header] creates the buffer. *)
Lemma no_cache_end_headers_eq h :
  NoCacheHTTPRequestHandler_end_headers h = Ok tt (finalized anti_cache h).
Proof.
  unfold NoCacheHTTPRequestHandler_end_headers.
  rewrite (bind_Ok _ _ _ _ _ (send_header_eq "Cache-Control" _ _ eq_refl)).
  rewrite (bind_Ok _ _ _ _ _ (send_header_eq "Pragma" _ _ eq_refl)).
  rewrite (bind_Ok _ _ _ _ _ (send_header_eq "Expires" _ _ eq_refl)).
  rewrite !buffered_buffered. rewrite base_end_headers_eq.
  - now rewrite finalized_buffered.
  - apply buffered_ready.
Qed.

Lemma stock_finalizes : finalizes_with SimpleHTTPRequestHandler [].
Proof. intros h Hb. apply base_end_headers_eq, Hb. Qed.

Lemma no_cache_finalizes : finalizes_with NoCacheHTTPRequestHandler anti_cache.
Proof. intros h _. apply no_cache_end_headers_eq. Qed.

End EndHeaders.

(** ** The responses of the handler *)

(** Equalities between handler states: by cases on the fields. *)
Ltac crunch h :=
  destruct h;
  unfold emitted, buffered, finalized, logged, set_close_connection,
    set_headers_buffer, set_wfile, set_stderr, sends_headers, pending;
  cbn [fs directory command path request_version requestline headers
       close_connection _headers_buffer wfile stderr];
  try match goal with
      | |- context [String.eqb ?v "HTTP/0.9"] =>
          destruct (String.eqb v "HTTP/0.9"); cbn [negb]
      end;
  try reflexivity.

Section Algebra.
Context `{Collaborators}.

Lemma buffered_logged lines text h :
  buffered lines (logged text h) = logged text (buffered lines h).
Proof. crunch h. Qed.

Lemma buffered_close lines b h :
  buffered lines (set_close_connection b h)
  = set_close_connection b (buffered lines h).
Proof. crunch h. Qed.

Lemma finalized_logged extra text h :
  finalized extra (logged text h) = logged text (finalized extra h).
Proof. crunch h. Qed.

Lemma finalized_close extra b h :
  finalized extra (set_close_connection b h)
  = set_close_connection b (finalized extra h).
Proof. crunch h. Qed.

Lemma requestline_logged text h : requestline (logged text h) = requestline h.
Proof. reflexivity. Qed.

Lemma command_logged text h : command (logged text h) = command h.
Proof. reflexivity. Qed.

Lemma command_close b h : command (set_close_connection b h) = command h.
Proof. reflexivity. Qed.

Lemma command_buffered lines h : command (buffered lines h) = command h.
Proof. crunch h. Qed.

Lemma command_finalized extra h : command (finalized extra h) = command h.
Proof. crunch h. Qed.

Lemma wfile_logged text h : wfile (logged text h) = wfile h.
Proof. reflexivity. Qed.

Lemma wfile_close b h : wfile (set_close_connection b h) = wfile h.
Proof. reflexivity. Qed.

Lemma wfile_finalized extra h :
  wfile (finalized extra h) = emitted h [] extra "".
Proof. crunch h; rewrite ?append_nil_r; reflexivity. Qed.

Lemma close_ready b h :
  (sends_headers h = true -> _headers_buffer h <> None) ->
  sends_headers (set_close_connection b h) = true ->
  _headers_buffer (set_close_connection b h) <> None.
Proof. exact (fun Hr => Hr). Qed.

Lemma log_request_eq code h :
  log_request code h =
  Ok tt (logged (String DQUOTE (requestline h) ++ String DQUOTE " "
                 ++ str_of_int code ++ " -") h).
Proof. reflexivity. Qed.

Lemma log_error_eq code message h :
  log_error code message h =
  Ok tt (logged ("code " ++ str_of_int code ++ ", message " ++ message) h).
Proof. reflexivity. Qed.

Lemma send_response_eq code message h :
  send_response code message h =
  Ok tt (buffered (response_head code (match message with
                                       | Some m => m
                                       | None => phrase code
                                       end))
           (logged (String DQUOTE (requestline h) ++ String DQUOTE " "
                    ++ str_of_int code ++ " -") h)).
Proof.
  unfold send_response.
  rewrite (bind_Ok _ _ _ _ _ (log_request_eq _ _)).
  rewrite (bind_Ok _ _ _ _ _ (send_response_only_eq _ _ _)).
  rewrite (bind_Ok _ _ _ _ _ (send_header_eq "Server" _ _ eq_refl)).
  rewrite (send_header_eq "Date" _ _ eq_refl).
  rewrite !buffered_buffered. reflexivity.
Qed.

End Algebra.

Create Rewrite HintDb handler.
Create Rewrite HintDb written.
#[local] Hint Rewrite @buffered_logged @buffered_close @finalized_logged
  @finalized_close @buffered_buffered @finalized_buffered @requestline_logged
  @command_logged @command_close @command_buffered @command_finalized : handler.
#[local] Hint Rewrite @wfile_logged @wfile_close @wfile_finalized : written.

(** One primitive of a response, run from a given state. *)
Ltac prim :=
  first [ apply log_error_eq
        | apply send_response_eq
        | apply send_header_eq; reflexivity
        | apply send_header_connection_close
        | match goal with
          | Hc : finalizes_with _ _ |- _ => apply Hc
          end;
          first [ apply buffered_ready | apply close_ready, buffered_ready ] ].

Ltac step :=
  repeat rewrite bind_assoc;
  first [ rewrite bind_ret | rewrite bind_get | rewrite bind_modify
        | erewrite bind_Ok by prim ].

(** Closing a goal [exists h', Ok r st = Ok r h' /\ wfile h' = emitted ...]. *)
Ltac sent :=
  unfold ret; eexists; (split; [reflexivity|]);
  unfold set_wfile; cbn [wfile]; autorewrite with handler;
  autorewrite with written; unfold emitted; rewrite <- ?app_assoc; cbn [app];
  rewrite ?append_nil_r, ?append_assoc; reflexivity.

Section Responses.
Context `{Collaborators}.
Variable cls : RequestHandlerClass.
Variable extra : list bytes.
Hypothesis Hcls : finalizes_with cls extra.

Lemma send_error_sends code message explain h :
  exists h',
    @send_error _ cls code message explain h = Ok tt h'
    /\ wfile h' = emitted h (error_block code message explain) extra
                    (error_body h code message explain).
Proof.
  unfold send_error, error_block, error_body, error_page, error_message.
  destruct (responses code) as [[shortmsg longmsg]|] eqn:Er.
  all: destruct (omits_body code) eqn:Eo.
  all: repeat step.
  all: autorewrite with handler.
  all: try set (page := error_content _ _ _).
  all: try (destruct (command h) as [c|]; [destruct (String.eqb c "HEAD")|]).
  all: try destruct (String.eqb_spec page "") as [Ep|Ep].
  all: cbn [negb andb when].
  all: eexists; (split; [reflexivity|]).
  all: unfold set_wfile; cbn [wfile]; autorewrite with handler.
  all: autorewrite with written.
  all: unfold emitted; rewrite <- ?app_assoc; cbn [app].
  all: rewrite ?Ep, ?append_nil_r, ?append_assoc; reflexivity.
Qed.

Lemma send_head_file_missing path h :
  endswith path "/" = true \/ open_rb (fs h) path = None ->
  exists h',
    @send_head_file _ cls path h = Ok None h'
    /\ wfile h' = emitted h (error_block 404 (Some "File not found") None) extra
                    (error_body h 404 (Some "File not found") None).
Proof.
  intros Hmiss.
  destruct (send_error_sends 404 (Some "File not found") None h)
    as (h' & Hrun & Hw).
  exists h'. split; [|exact Hw].
  unfold send_head_file. rewrite bind_get.
  destruct (endswith path "/").
  - now rewrite (bind_Ok _ _ _ _ _ Hrun).
  - destruct Hmiss as [Hmiss|Hmiss]; [discriminate|].
    rewrite Hmiss. now rewrite (bind_Ok _ _ _ _ _ Hrun).
Qed.

Lemma send_head_file_not_modified path f h :
  endswith path "/" = false -> open_rb (fs h) path = Some f ->
  not_modified h f = true ->
  exists h',
    @send_head_file _ cls path h = Ok None h'
    /\ wfile h' = emitted h (response_head 304 (phrase 304)) extra "".
Proof.
  intros Hs Ho Hn. unfold send_head_file.
  rewrite bind_get, Hs, Ho, Hn. repeat step. sent.
Qed.

Lemma send_head_file_found path f h :
  endswith path "/" = false -> open_rb (fs h) path = Some f ->
  not_modified h f = false ->
  exists h',
    @send_head_file _ cls path h = Ok (Some (data f)) h'
    /\ wfile h' = emitted h (file_block path f) extra "".
Proof.
  intros Hs Ho Hn. unfold send_head_file, file_block.
  rewrite bind_get, Hs, Ho, Hn. repeat step. sent.
Qed.

End Responses.

(** ** Every path of a request *)

Section Requests.
Context `{Collaborators}.

Lemma send_head_file_sends path h :
  exists r block body, sends (fun cls => @send_head_file _ cls path) h r block body.
Proof.
  destruct (endswith path "/") eqn:Hs.
  { exists None, (error_block 404 (Some "File not found") None),
      (error_body h 404 (Some "File not found") None).
    intros cls extra Hcls.
    apply (send_head_file_missing cls extra Hcls). now left. }
  destruct (open_rb (fs h) path) as [f|] eqn:Ho.
  2:{ exists None, (error_block 404 (Some "File not found") None),
        (error_body h 404 (Some "File not found") None).
      intros cls extra Hcls.
      apply (send_head_file_missing cls extra Hcls). now right. }
  destruct (not_modified h f) eqn:Hn.
  - exists None, (response_head 304 (phrase 304)), "".
    intros cls extra Hcls.
    now apply (send_head_file_not_modified cls extra Hcls path f).
  - exists (Some (data f)), (file_block path f), "".
    intros cls extra Hcls.
    now apply (send_head_file_found cls extra Hcls path f).
Qed.

Lemma list_directory_sends path h :
  exists r block body, sends (fun cls => @list_directory _ cls path) h r block body.
Proof.
  unfold sends, list_directory.
  destruct (listdir (fs h) path) as [names|] eqn:Hl.
  - exists (Some (directory_page (fs h) path (http_server.path h) names)),
      (listing_block (directory_page (fs h) path (http_server.path h) names)),
      "".
    intros cls extra Hcls. rewrite bind_get, Hl. unfold listing_block.
    repeat step. sent.
  - exists None, (error_block 404 (Some "No permission to list directory") None),
      (error_body h 404 (Some "No permission to list directory") None).
    intros cls extra Hcls. rewrite bind_get, Hl.
    destruct (send_error_sends cls extra Hcls 404
                (Some "No permission to list directory") None h)
      as (h' & Hrun & Hw).
    exists h'. split; [|exact Hw]. now rewrite (bind_Ok _ _ _ _ _ Hrun).
Qed.

Lemma send_head_sends h :
  exists r block body, sends (fun cls => @send_head _ cls) h r block body.
Proof.
  unfold sends, send_head.
  destruct (isdir (fs h) (translate_path (directory h) (path h))) eqn:Hd.
  - destruct (endswith (urlsplit_path (path h)) "/") eqn:Hu.
    + destruct (find (isfile (fs h))
                  (map (posixpath.join (translate_path (directory h) (path h)))
                       ["index.html"; "index.htm"])) as [index|] eqn:Hi.
      * destruct (send_head_file_sends index h) as (r & block & body & Hrun).
        exists r, block, body. intros cls extra Hcls.
        rewrite bind_get, Hd, Hu. cbn [negb]. rewrite Hi. now apply Hrun.
      * destruct (list_directory_sends
                    (translate_path (directory h) (path h)) h)
          as (r & block & body & Hrun).
        exists r, block, body. intros cls extra Hcls.
        rewrite bind_get, Hd, Hu. cbn [negb]. rewrite Hi. now apply Hrun.
    + exists None, (redirect_block (path h)), "".
      intros cls extra Hcls. unfold redirect_block.
      rewrite bind_get, Hd, Hu. cbn [negb]. repeat step. sent.
  - destruct (send_head_file_sends (translate_path (directory h) (path h)) h)
      as (r & block & body & Hrun).
    exists r, block, body. intros cls extra Hcls.
    rewrite bind_get, Hd. now apply Hrun.
Qed.

End Requests.

Section Methods.
Context `{Collaborators}.

Lemma do_GET_sends h :
  exists block body, sends (fun cls => @do_GET _ cls) h tt block body.
Proof.
  destruct (send_head_sends h) as (r & block & body & Hrun).
  exists block, (body ++ match r with Some content => content | None => "" end).
  intros cls extra Hcls. destruct (Hrun cls extra Hcls) as (h' & Hr & Hw).
  unfold do_GET. rewrite (bind_Ok _ _ _ _ _ Hr). destruct r as [content|].
  - eexists. split; [reflexivity|]. unfold set_wfile. cbn [wfile].
    rewrite Hw. unfold emitted. now rewrite !append_assoc.
  - exists h'. split; [reflexivity|]. now rewrite append_nil_r.
Qed.

Lemma do_HEAD_sends h :
  exists block body, sends (fun cls => @do_HEAD _ cls) h tt block body.
Proof.
  destruct (send_head_sends h) as (r & block & body & Hrun).
  exists block, body.
  intros cls extra Hcls. destruct (Hrun cls extra Hcls) as (h' & Hr & Hw).
  unfold do_HEAD. rewrite (bind_Ok _ _ _ _ _ Hr). now exists h'.
Qed.

(** Whatever the method, the path, the headers and the files: a request
    is answered, by a block that the class closes and a body. *)
Lemma handle_method_sends h c :
  command h = Some c ->
  exists block body, sends (fun cls => @handle_method _ cls) h tt block body.
Proof.
  intros Hc. unfold sends, handle_method.
  destruct (String.eqb c "GET") eqn:Eg.
  - destruct (do_GET_sends h) as (block & body & Hrun). exists block, body.
    intros cls extra Hcls. rewrite bind_get, Hc, Eg. now apply Hrun.
  - destruct (String.eqb c "HEAD") eqn:Eh.
    + destruct (do_HEAD_sends h) as (block & body & Hrun). exists block, body.
      intros cls extra Hcls. rewrite bind_get, Hc, Eg, Eh. now apply Hrun.
    + eexists _, _. intros cls extra Hcls. rewrite bind_get, Hc, Eg, Eh.
      apply (send_error_sends cls extra Hcls).
Qed.

Lemma emitted_parsed files cwd r block extra body :
  emitted (parsed files cwd r) block extra body
  = response (req_version r) block extra body.
Proof. reflexivity. Qed.

End Methods.

(** ** The anti-cache headers *)

Section AntiCache.
Context `{Collaborators}.

Lemma sends_headers_iff h :
  sends_headers h = true <-> request_version h <> "HTTP/0.9".
Proof.
  unfold sends_headers. rewrite negb_true_iff.
  destruct (String.eqb_spec (request_version h) "HTTP/0.9"); split;
    congruence.
Qed.


(** C3.  The three lines come in addition to what the static file handler
    sends: [end_headers] writes the pending lines as they are, in their
    order, before the added ones (and leaves an HTTP/0.9 exchange alone);
    and the response of the subclass to a request is the response of
    [SimpleHTTPRequestHandler] to it, with the same header lines and the
    same body, the three lines standing between the last line and the
    blank line. *)
Theorem base_headers_kept :
  (forall h : handler,
      exists h',
        NoCacheHTTPRequestHandler_end_headers h = Ok tt h'
        /\ wfile h'
           = wfile h ++ (if sends_headers h
                         then join_bytes (pending h ++ anti_cache ++ [CRLF])
                         else "")
        /\ (if sends_headers h then pending h' = [] else h' = h))
  /\ (forall files cwd r,
      exists block body h_base h_sub,
        @handle_method _ SimpleHTTPRequestHandler (parsed files cwd r)
        = Ok tt h_base
        /\ @handle_method _ NoCacheHTTPRequestHandler (parsed files cwd r)
           = Ok tt h_sub
        /\ wfile h_base = response (req_version r) block [] body
        /\ wfile h_sub = response (req_version r) block anti_cache body).
Proof.
  split.
  - intros h. exists (finalized anti_cache h). split.
    + apply no_cache_end_headers_eq.
    + unfold finalized. destruct (sends_headers h); cbn [wfile set_wfile
        set_headers_buffer pending _headers_buffer].
      * split; reflexivity.
      * split; [now rewrite append_nil_r|reflexivity].
  - intros files cwd r.
    destruct (handle_method_sends (parsed files cwd r) (req_command r) eq_refl)
      as (block & body & Hrun).
    destruct (Hrun _ _ stock_finalizes) as (h_base & Hb & Hwb).
    destruct (Hrun _ _ no_cache_finalizes) as (h_sub & Hs & Hws).
    exists block, body, h_base, h_sub.
    rewrite emitted_parsed in Hwb, Hws. auto.
Qed.



End AntiCache.

(** ** The serve loop *)

Section ServeLoop.
Context `{Collaborators}.

Lemma same_process_refl w : same_process w w.
Proof. repeat split. Qed.

Lemma same_process_trans w1 w2 w3 :
  same_process w1 w2 -> same_process w2 w3 -> same_process w1 w3.
Proof.
  unfold same_process. intros (A1 & A2 & A3 & A4 & A5) (B1 & B2 & B3 & B4 & B5).
  repeat split; congruence.
Qed.

Lemma finish_request_same self c w :
  same_process w (final (socketserver.finish_request self c w)).
Proof.
  unfold socketserver.finish_request. destruct c as [peer files r|peer e].
  - destruct (handle_method _); repeat split.
  - repeat split.
Qed.

Lemma handle_request_noblock_same self c w :
  same_process w (final (socketserver.handle_request_noblock self c w)).
Proof.
  unfold socketserver.handle_request_noblock, socketserver.process_request,
    try_except.
  pose proof (finish_request_same self c w) as Hf.
  destruct (socketserver.finish_request self c w) as [a w1|e w1|w1];
    cbn [final] in *; try exact Hf.
  destruct (is_Exception e); [|exact Hf].
  eapply same_process_trans; [exact Hf|]. repeat split.
Qed.

(** The loop never returns while [__shutdown_request] is false, and
    serving changes neither the directory, nor what was printed, nor the
    socket. *)
Lemma serve_loop_runs self events w :
  socketserver.shutdown_request self = false ->
  (forall w', socketserver.serve_loop self events w <> Ok tt w')
  /\ same_process w (final (socketserver.serve_loop self events w)).
Proof.
  intros Hflag. revert w. induction events as [|ev rest IH]; intros w.
  - cbn [socketserver.serve_loop]. rewrite Hflag. split.
    + discriminate.
    + apply same_process_refl.
  - cbn [socketserver.serve_loop]. rewrite Hflag. unfold bind.
    assert (Hstep : same_process w
              (final (match ev with
                      | socketserver.idle => ret tt
                      | socketserver.accept_error _ => ret tt
                      | socketserver.accepted c =>
                          socketserver.handle_request_noblock self c
                      | socketserver.interrupt e => raise e
                      end w))).
    { destruct ev as [|errno|c|e]; try apply same_process_refl.
      apply handle_request_noblock_same. }
    destruct (match ev with
              | socketserver.idle => ret tt
              | socketserver.accept_error _ => ret tt
              | socketserver.accepted c =>
                  socketserver.handle_request_noblock self c
              | socketserver.interrupt e => raise e
              end w) as [[] w1|e w1|w1]; cbn [final] in Hstep.
    + destruct (IH w1) as [Hn Hs]. split; [exact Hn|].
      eapply same_process_trans; [exact Hstep|exact Hs].
    + split; [discriminate|exact Hstep].
    + split; [discriminate|exact Hstep].
Qed.

(** Served by [NoCacheHTTPRequestHandler], a client is always answered. *)
Lemma finish_request_client self peer files r w :
  socketserver.RequestHandlerClass self = NoCacheHTTPRequestHandler ->
  exists w',
    socketserver.finish_request self (socketserver.client peer files r) w
    = Ok tt w'
    /\ length (os.sent w') = S (length (os.sent w)).
Proof.
  intros Hcls. unfold socketserver.finish_request. rewrite Hcls.
  destruct (handle_method_sends (parsed files (os.cwd w) r) (req_command r)
              eq_refl) as (block & body & Hrun).
  destruct (Hrun _ _ no_cache_finalizes) as (h' & Hr & _).
  rewrite Hr. eexists. split; [reflexivity|].
  cbn [os.sent os.with_sent]. rewrite length_app. cbn [length]. lia.
Qed.

Lemma handle_request_noblock_survives self c w :
  socketserver.RequestHandlerClass self = NoCacheHTTPRequestHandler ->
  survivable (socketserver.accepted c) = true ->
  exists w',
    socketserver.handle_request_noblock self c w = Ok tt w'
    /\ length (os.sent w')
       = (length (os.sent w)
          + if is_client (socketserver.accepted c) then 1 else 0)%nat.
Proof.
  intros Hcls Hsurv.
  unfold socketserver.handle_request_noblock, socketserver.process_request,
    try_except.
  destruct c as [peer files r|peer e].
  - destruct (finish_request_client self peer files r w Hcls) as (w' & Hr & Hl).
    rewrite Hr. exists w'. split; [reflexivity|]. cbn [is_client]. lia.
  - cbn [survivable] in Hsurv. cbn [socketserver.finish_request].
    rewrite Hsurv. eexists. split; [reflexivity|]. cbn [is_client].
    cbn. lia.
Qed.

(** As long as no event ends it, the loop goes on: every event is taken
    and the process then waits in [select] for the next one. *)
Lemma serve_loop_survives self events w :
  socketserver.shutdown_request self = false ->
  socketserver.RequestHandlerClass self = NoCacheHTTPRequestHandler ->
  forallb survivable events = true ->
  exists w',
    socketserver.serve_loop self events w = Blocked w'
    /\ length (os.sent w')
       = (length (os.sent w) + length (filter is_client events))%nat.
Proof.
  intros Hflag Hcls. revert w.
  induction events as [|ev rest IH]; intros w Hsurv.
  - cbn [socketserver.serve_loop]. rewrite Hflag. exists w.
    split; [reflexivity|]. cbn. lia.
  - cbn [forallb] in Hsurv. apply andb_true_iff in Hsurv as [Hev Hrest].
    cbn [socketserver.serve_loop]. rewrite Hflag.
    assert (Hstep : exists w1,
               match ev with
               | socketserver.idle => ret tt
               | socketserver.accept_error _ => ret tt
               | socketserver.accepted c =>
                   socketserver.handle_request_noblock self c
               | socketserver.interrupt e => raise e
               end w = Ok tt w1
               /\ length (os.sent w1)
                  = (length (os.sent w) + if is_client ev then 1 else 0)%nat).
    { destruct ev as [|errno|c|e].
      - exists w. split; [reflexivity|]. cbn. lia.
      - exists w. split; [reflexivity|]. cbn. lia.
      - now apply handle_request_noblock_survives.
      - discriminate. }
    destruct Hstep as (w1 & Hr & Hl). rewrite (bind_Ok _ _ _ _ _ Hr).
    destruct (IH w1 Hrest) as (w' & Hr' & Hl'). exists w'.
    split; [exact Hr'|]. rewrite Hl', Hl. cbn [filter].
    destruct (is_client ev); cbn [length]; lia.
Qed.

(** An event that is not survivable ends the loop, by its exception. *)
Lemma serve_loop_stops self events w :
  socketserver.shutdown_request self = false ->
  socketserver.RequestHandlerClass self = NoCacheHTTPRequestHandler ->
  forallb survivable events = false ->
  exists e w', socketserver.serve_loop self events w = Raise e w'.
Proof.
  intros Hflag Hcls. revert w.
  induction events as [|ev rest IH]; intros w Hsurv; [discriminate|].
  cbn [forallb] in Hsurv. cbn [socketserver.serve_loop]. rewrite Hflag.
  destruct ev as [|errno|c|e].
  - cbn [survivable andb] in Hsurv. rewrite bind_ret. now apply IH.
  - cbn [survivable andb] in Hsurv. rewrite bind_ret. now apply IH.
  - destruct (survivable (socketserver.accepted c)) eqn:Hc.
    + destruct (handle_request_noblock_survives self c w Hcls Hc)
        as (w1 & Hr & _).
      rewrite (bind_Ok _ _ _ _ _ Hr). now apply IH.
    + destruct c as [peer files r|peer e]; [discriminate|].
      cbn [survivable] in Hc. exists e, w.
      apply bind_Raise.
      unfold socketserver.handle_request_noblock,
        socketserver.process_request, try_except.
      cbn [socketserver.finish_request]. now rewrite Hc.
  - exists e, w. reflexivity.
Qed.

End ServeLoop.

(** ** Startup *)

Section StartupProofs.
Context `{Collaborators}.

Lemma main_eq events w :
  main events w = bind startup (fun httpd => serving httpd events) w.
Proof.
  unfold main, startup, serving, bind.
  destruct (file_global w) as [file w1|e w1|w1]; [|reflexivity..].
  destruct (os.abspath file w1) as [here w2|e w2|w2]; [|reflexivity..].
  destruct (os.chdir (posixpath.dirname here) w2) as [[] w3|e w3|w3];
    reflexivity.
Qed.

(** Running the statements of startup on a process given by its fields. *)
Ltac os_unfold :=
  unfold startup, file_global, os.abspath, os.getcwd, os.chdir,
    socketserver.TCPServer, socketserver.server_bind,
    socketserver.server_activate, socketserver.server_close,
    socket.socket, socket.bind, socket.listen, socket.close,
    os.syscall_, try_except, bind, get, ret, raise, modify,
    os.with_cwd, os.with_trace, os.with_sock,
    socketserver.BaseServer_init, socketserver.request_queue_size;
  cbn [socketserver.server_address os.sys os.argv os.environ os.dunder_file os.cwd os.stdout os.stderr
       os.sock os.sent os.trace os.getcwd_errno os.chdir_errno
       os.socket_errno os.bind_errno os.listen_errno negb].

Ltac os_case :=
  match goal with
  | |- context [match ?o with Some _ => _ | None => _ end] =>
      is_var o; destruct o
  | |- context [match ?f ?a with Some _ => _ | None => _ end] =>
      is_var f; destruct (f a)
  | |- context [match ?f ?a ?b with Some _ => _ | None => _ end] =>
      is_var f; destruct (f a b)
  end; os_unfold.

Ltac os_done :=
  unfold untouched, calls_until, calls_of_startup, target;
  cbn [os.sys os.argv os.environ os.dunder_file os.cwd os.stdout os.stderr
       os.sock os.sent os.trace entered exit_code app];
  repeat match goal with
         | |- exists _, _ => eexists
         | |- _ /\ _ => split
         | |- forall _, _ => intro
         | H : Some _ = Some _ |- _ => injection H as <-
         | H : Some _ = None |- _ => discriminate H
         | H : None = Some _ |- _ => discriminate H
         | H : true = false |- _ => discriminate H
         | H : ?x = _ |- context [if ?x then _ else _] => rewrite H
         end;
  cbn [app]; rewrite <- ?app_assoc; cbn [app];
  try reflexivity; auto.

Ltac os_run :=
  os_unfold;
  repeat (progress
            repeat match goal with
                   | E : ?x = _ |- context [?x] => rewrite E
                   end;
          os_unfold);
  os_done.

(** Startup, against the answers of the system: it ends as
    [startup_failure] says. *)
Lemma startup_spec w :
  match startup_failure w with
  | None =>
      exists file w',
        os.dunder_file w = Some file
        /\ startup w
           = Ok (socketserver.BaseServer_init ("", PORT)
                   NoCacheHTTPRequestHandler) w'
        /\ os.cwd w' = posixpath.join (os.cwd w) (target (os.cwd w) file)
        /\ os.sock w' = os.listening "" PORT
        /\ os.trace w' = (os.trace w ++ calls_of_startup (os.cwd w) file)%list
        /\ untouched w w'
  | Some (s, e) =>
      exists w',
        startup w = Raise e w'
        /\ exit_code e = 1
        /\ (os.sock w' = os.sock w \/ os.sock w' = os.closed)
        /\ (os.dunder_file w = None -> os.trace w' = os.trace w)
        /\ (forall file, os.dunder_file w = Some file ->
            os.trace w' = (os.trace w ++ calls_until s (os.cwd w) file)%list
            /\ os.cwd w' = if entered s
                           then posixpath.join (os.cwd w) (target (os.cwd w) file)
                           else os.cwd w)
        /\ untouched w w'
  end.
Proof.
  unfold startup_failure, target.
  destruct w as [k args env file cwd out err sock sent tr].
  destruct k as [gc cd so bi li fe].
  cbn [os.sys os.dunder_file os.cwd os.getcwd_errno os.chdir_errno
       os.socket_errno os.bind_errno os.listen_errno].
  destruct file as [f|]; [|solve [os_run]].
  destruct (posixpath.isabs f) eqn:Ea;
    [|destruct gc as [e0|] eqn:Egc; [solve [os_run]|]];
    (destruct (cd _) as [e1|] eqn:Ecd; [solve [os_run]|]);
    (destruct so as [e2|] eqn:Eso; [solve [os_run]|]);
    (destruct (bi "" PORT) as [e3|] eqn:Ebi; [solve [os_run]|]);
    (destruct li as [e4|] eqn:Eli; [solve [os_run]|exists f; solve [os_run]]).
Qed.

End StartupProofs.

(** ** The script *)

Section Script.
Context `{Collaborators}.

Lemma serving_eq httpd events w :
  serving httpd events w
  = try_finally (socketserver.serve_loop httpd events)
                (socketserver.server_close httpd) (announced w).
Proof.
  unfold serving, try_finally, announced, banner. unfold bind at 1 2 3.
  unfold os.print, modify. destruct w; cbn [os.stdout os.with_stdout].
  rewrite <- !app_assoc. reflexivity.
Qed.

Lemma serving_spec httpd events w :
  socketserver.shutdown_request httpd = false ->
  match serving httpd events w with
  | Ok _ _ => False
  | Blocked w' =>
      os.stdout w' = (os.stdout w ++ banner)%list /\ os.cwd w' = os.cwd w
      /\ os.sock w' = os.sock w /\ os.trace w' = os.trace w
      /\ os.sys w' = os.sys w
  | Raise e w' =>
      os.stdout w' = (os.stdout w ++ banner)%list /\ os.cwd w' = os.cwd w
      /\ os.sock w' = os.closed
      /\ os.trace w' = (os.trace w ++ [os.sys_close])%list
      /\ os.sys w' = os.sys w
  end.
Proof.
  intros Hflag. rewrite serving_eq. unfold try_finally.
  destruct (serve_loop_runs httpd events (announced w) Hflag) as [Hn Hs].
  destruct (socketserver.serve_loop httpd events (announced w))
    as [[] w1|e w1|w1]; cbn [final] in Hs.
  - now destruct (Hn w1).
  - destruct Hs as (S1 & S2 & S3 & S4 & S5).
    unfold socketserver.server_close, socket.close, os.syscall_, bind, modify,
      raise.
    cbn [os.stdout os.cwd os.sock os.trace os.sys os.with_sock os.with_trace].
    rewrite S1, S2, S3, S5. repeat split.
  - destruct Hs as (S1 & S2 & S3 & S4 & S5). rewrite S1, S2, S3, S4, S5.
    repeat split.
Qed.

Lemma serving_survives httpd events w :
  socketserver.shutdown_request httpd = false ->
  socketserver.RequestHandlerClass httpd = NoCacheHTTPRequestHandler ->
  forallb survivable events = true ->
  exists w',
    serving httpd events w = Blocked w'
    /\ length (os.sent w')
       = (length (os.sent w) + length (filter is_client events))%nat.
Proof.
  intros Hflag Hcls Hsurv. rewrite serving_eq.
  destruct (serve_loop_survives httpd events (announced w) Hflag Hcls Hsurv)
    as (w' & Hr & Hl).
  exists w'. unfold try_finally. rewrite Hr. split; [reflexivity|exact Hl].
Qed.

Lemma serving_enters httpd w :
  socketserver.shutdown_request httpd = false ->
  serving httpd [] w = Blocked (announced w).
Proof.
  intros Hflag. rewrite serving_eq. unfold try_finally.
  cbn [socketserver.serve_loop]. now rewrite Hflag.
Qed.

End Script.

Section Claims.
Context `{Collaborators}.

Lemma startup_server_flag :
  socketserver.shutdown_request
    (socketserver.BaseServer_init ("", PORT) NoCacheHTTPRequestHandler)
  = false.
Proof. reflexivity. Qed.

(** The script never runs to its end. *)
Lemma main_never_returns events w w' : main events w <> Ok tt w'.
Proof.
  rewrite main_eq. unfold bind. pose proof (startup_spec w) as Hs.
  destruct (startup_failure w) as [[s e]|].
  - destruct Hs as (w1 & -> & _). discriminate.
  - destruct Hs as (file & w1 & _ & -> & _).
    pose proof (serving_spec _ events w1 startup_server_flag) as Hv.
    destruct (serving _ events w1) as [[] w2|e w2|w2];
      [contradiction|discriminate..].
Qed.

(** A running script has started, and is as startup and the banner left
    it, but for what it sent and logged. *)
Lemma running_spec events w w' :
  python events w = (running, w') ->
  exists file,
    os.dunder_file w = Some file
    /\ startup_failure w = None
    /\ os.cwd w' = posixpath.join (os.cwd w) (target (os.cwd w) file)
    /\ os.sock w' = os.listening "" PORT
    /\ os.trace w' = (os.trace w ++ calls_of_startup (os.cwd w) file)%list
    /\ os.stdout w' = (os.stdout w ++ banner)%list
    /\ (events = [] -> os.stderr w' = os.stderr w).
Proof.
  unfold python. rewrite main_eq. unfold bind.
  pose proof (startup_spec w) as Hs.
  destruct (startup_failure w) as [[s e]|].
  { destruct Hs as (w1 & -> & _). discriminate. }
  destruct Hs as (file & w1 & Hf & -> & Hcwd & Hsock & Htr & Hu).
  destruct Hu as (U1 & U2 & U3 & U4).
  pose proof (serving_spec _ events w1 startup_server_flag) as Hv.
  pose proof (serving_enters _ w1 startup_server_flag) as He.
  destruct (serving _ events w1) as [[] w2|e w2|w2] eqn:Hserve;
    [contradiction|discriminate|].
  intros [= <-]. destruct Hv as (V1 & V2 & V3 & V4 & V5).
  exists file. repeat split; try congruence.
  intros ->. rewrite He in Hserve. injection Hserve as <-.
  cbn [announced os.stderr os.with_stdout]. exact U3.
Qed.

Lemma calls_until_NoDup s launch file : NoDup (calls_until s launch file).
Proof.
  unfold calls_until.
  destruct (posixpath.isabs file), s; cbn [app];
    repeat (constructor; [cbn [In]; intuition discriminate|]);
    constructor.
Qed.

(** A failed startup ends the interpreter. *)
Lemma failed_startup_exits events w s e :
  startup_failure w = Some (s, e) ->
  exists w',
    python events w = (exited 1, w')
    /\ (forall file, os.dunder_file w = Some file ->
        os.trace w' = (os.trace w ++ calls_until s (os.cwd w) file)%list
        /\ os.cwd w' = if entered s
                       then posixpath.join (os.cwd w) (target (os.cwd w) file)
                       else os.cwd w)
    /\ (os.dunder_file w = None -> os.trace w' = os.trace w)
    /\ (os.sock w' = os.sock w \/ os.sock w' = os.closed)
    /\ os.stderr w' = (os.stderr w ++ [os.format_exc (os.sys w) e])%list
    /\ os.stdout w' = os.stdout w
    /\ os.sent w' = os.sent w.
Proof.
  intros Hfail. pose proof (startup_spec w) as Hs. rewrite Hfail in Hs.
  destruct Hs as (w1 & Hrun & Hcode & Hsock & Hnone & Hsome & Hu).
  destruct Hu as (U1 & U2 & U3 & U4).
  assert (Hm : main events w = Raise e w1).
  { rewrite main_eq. now apply bind_Raise. }
  assert (He : match e with SystemExit _ => False | _ => True end).
  { unfold startup_failure in Hfail.
    repeat match type of Hfail with
           | match ?x with _ => _ end = _ => destruct x
           end; try discriminate; injection Hfail as _ <-; exact I. }
  exists (os.with_stderr (os.stderr w1 ++ [os.format_exc (os.sys w1) e])%list w1).
  unfold python. rewrite Hm, Hcode.
  split; [destruct e; try reflexivity; contradiction|].
  cbn [os.stderr os.stdout os.sent os.sock os.trace os.cwd os.with_stderr].
  rewrite U1, U2, U3, U4. repeat split; try assumption; now apply Hsome.
Qed.

(** C5.  A script that has started and runs listens on the address
    [("", 8000)]: the empty host stands for every local interface, and
    the port is the constant [PORT].  Neither the arguments nor the
    environment of the process change it: they may be any. *)
Theorem listens_on_every_interface_port_8000
        (events : list socketserver.event) (w w' : os.process)
        (args : list str) (env : list (str * str)) :
  python events (relaunched args env w) = (running, w') ->
  os.sock w' = os.listening "" 8000
  /\ exists file,
      os.trace w' = (os.trace w ++ calls_of_startup (os.cwd w) file)%list.
Proof.
  intros Hrun. apply running_spec in Hrun as (file & _ & _ & _ & Hs & Ht & _).
  split; [exact Hs|]. exists file. exact Ht.
Qed.

(** C6.  A failure of startup at any stage (the directory of the script
    cannot be resolved or entered; the socket cannot be opened, bound or
    activated) is fatal: the interpreter prints the exception and exits
    with status 1; nothing is printed to standard output, no connection
    is served, and no system call is made twice. *)
Theorem startup_failure_is_fatal
        (events : list socketserver.event) (w : os.process)
        (s : stage) (e : exn) :
  startup_failure w = Some (s, e) ->
  exists w' calls,
    python events w = (exited 1, w')
    /\ os.stderr w' = (os.stderr w ++ [os.format_exc (os.sys w) e])%list
    /\ os.stdout w' = os.stdout w
    /\ os.sent w' = os.sent w
    /\ (os.sock w' = os.sock w \/ os.sock w' = os.closed)
    /\ os.trace w' = (os.trace w ++ calls)%list
    /\ NoDup calls.
Proof.
  intros Hfail.
  destruct (failed_startup_exits events w s e Hfail)
    as (w' & Hpy & Hsome & Hnone & Hsock & Herr & Hout & Hsent).
  exists w', (match os.dunder_file w with
              | Some file => calls_until s (os.cwd w) file
              | None => []
              end).
  repeat split; try assumption.
  - destruct (os.dunder_file w) as [file|].
    + now destruct (Hsome file eq_refl).
    + rewrite app_nil_r. now apply Hnone.
  - destruct (os.dunder_file w); [apply calls_until_NoDup|constructor].
Qed.

(** C7.  The script never runs to its end, whatever happens.  Once it has
    started, it is still running after any sequence of events none of
    which raises past the loop (an exception out of [select], or one that
    is not an [Exception] out of a handler), having answered every
    client; and only such an event ends it. *)
Theorem serve_loop_ends_only_by_exception
        (events : list socketserver.event) (w : os.process) :
  startup_failure w = None ->
  (forall w', main events w <> Ok tt w')
  /\ (forallb survivable events = true ->
      exists w',
        python events w = (running, w')
        /\ length (os.sent w')
           = (length (os.sent w) + length (filter is_client events))%nat)
  /\ (forallb survivable events = false ->
      exists e w', main events w = Raise e w').
Proof.
  intros Hstart. split; [intros w'; apply main_never_returns|].
  pose proof (startup_spec w) as Hs. rewrite Hstart in Hs.
  destruct Hs as (file & w1 & _ & Hrun & _ & _ & _ & Hu).
  destruct Hu as (_ & _ & _ & U4). split.
  - intros Hsurv.
    destruct (serving_survives _ events w1 startup_server_flag eq_refl Hsurv)
      as (w' & Hr & Hl).
    exists w'. unfold python. rewrite main_eq, (bind_Ok _ _ _ _ _ Hrun), Hr.
    split; [reflexivity|]. now rewrite Hl, U4.
  - intros Hstop. rewrite main_eq, (bind_Ok _ _ _ _ _ Hrun), serving_eq.
    destruct (serve_loop_stops _ events (announced w1) startup_server_flag
                eq_refl Hstop) as (e & w2 & Hr).
    unfold try_finally. rewrite Hr. eexists _, _. reflexivity.
Qed.



End Claims.

(** ** Paths *)

Section PathFacts.

Lemma is_name_inv d :
  is_name d = true ->
  no_sep d = true /\ d <> "." /\ d <> ".."
  /\ exists c d', d = String c d' /\ Ascii.eqb c posixpath.sep = false.
Proof.
  unfold is_name. rewrite !andb_true_iff, !negb_true_iff.
  intros [[[Hne Hsep] Hdot] Hdots].
  apply String.eqb_neq in Hdot, Hdots. repeat split; try assumption.
  destruct d as [|c d']; [discriminate|]. exists c, d'. split; [reflexivity|].
  cbn [no_sep] in Hsep. apply andb_true_iff in Hsep as [Hc _].
  now apply negb_true_iff in Hc.
Qed.

Lemma names_no_sep l :
  forallb is_name l = true -> forallb no_sep l = true.
Proof.
  induction l as [|d l IH]; [reflexivity|]. cbn [forallb].
  rewrite !andb_true_iff. intros [Hd Hl]. split; [|now apply IH].
  now apply is_name_inv in Hd.
Qed.

Lemma concat_snoc (l : list str) (x : str) :
  String.concat "/" (l ++ [x])%list = slashed l ++ x.
Proof.
  induction l as [|d l IH]; [reflexivity|].
  cbn [app slashed]. rewrite !append_assoc, <- IH.
  destruct l; reflexivity.
Qed.

Lemma render_snoc (l : list str) (x : str) : render (l ++ [x])%list = "/" ++ slashed l ++ x.
Proof. unfold render. now rewrite concat_snoc. Qed.

Lemma slashed_snoc (l : list str) (d : str) : slashed (l ++ [d])%list = slashed l ++ d ++ "/".
Proof.
  induction l as [|a l IH]; cbn [app slashed].
  - now rewrite append_nil_r.
  - now rewrite IH, !append_assoc.
Qed.

Lemma list_snoc {A} (l : list A) :
  l = [] \/ exists l' x, l = (l' ++ [x])%list.
Proof.
  destruct l as [|a l]; [now left|right].
  destruct (exists_last (l := a :: l)) as (l' & x & E); [discriminate|].
  now exists l', x.
Qed.

(** *** [split] *)

Lemma split_no_sep x : no_sep x = true -> posixpath.split x = [x].
Proof.
  induction x as [|c x IH]; [reflexivity|]. cbn [no_sep posixpath.split].
  rewrite andb_true_iff, negb_true_iff. intros [-> Hx]. now rewrite IH.
Qed.

Lemma split_app_sep a rest :
  no_sep a = true ->
  posixpath.split (a ++ "/" ++ rest) = a :: posixpath.split rest.
Proof.
  induction a as [|c a IH]; [reflexivity|]. cbn [no_sep].
  rewrite andb_true_iff, negb_true_iff. intros [Hc Ha].
  cbn [append posixpath.split] in *. now rewrite Hc, IH.
Qed.

Lemma split_slashed l x :
  forallb no_sep l = true -> no_sep x = true ->
  posixpath.split (slashed l ++ x) = (l ++ [x])%list.
Proof.
  intros Hl Hx. induction l as [|d l IH]; cbn [slashed app].
  - now apply split_no_sep.
  - cbn [forallb] in Hl. apply andb_true_iff in Hl as [Hd Hl].
    rewrite !append_assoc, split_app_sep by assumption. now rewrite IH.
Qed.

(** *** [normpath] *)

Lemma normpath_step_name n acc d :
  is_name d = true -> posixpath.normpath_step n acc d = (acc ++ [d])%list.
Proof.
  intros Hd. apply is_name_inv in Hd as (_ & Hdot & Hdots & c & d' & -> & _).
  unfold posixpath.normpath_step.
  apply String.eqb_neq in Hdot, Hdots. rewrite Hdot, Hdots. reflexivity.
Qed.

Lemma fold_normpath_step_names n l acc :
  forallb is_name l = true ->
  fold_left (posixpath.normpath_step n) l acc = (acc ++ l)%list.
Proof.
  revert acc. induction l as [|d l IH]; intros acc Hl.
  - now rewrite app_nil_r.
  - cbn [forallb] in Hl. apply andb_true_iff in Hl as [Hd Hl].
    cbn [fold_left]. rewrite normpath_step_name, IH by assumption.
    now rewrite <- app_assoc.
Qed.

Lemma concat_names_head l :
  forallb is_name l = true ->
  l = [] \/ exists c s, String.concat "/" l = String c s
                        /\ Ascii.eqb c posixpath.sep = false.
Proof.
  destruct l as [|d l]; [now left|right]. cbn [forallb] in H.
  apply andb_true_iff in H as [Hd _].
  apply is_name_inv in Hd as (_ & _ & _ & c & d' & -> & Hc).
  destruct l; cbn [String.concat append]; eauto.
Qed.

Lemma prefix_sep c s :
  Ascii.eqb c posixpath.sep = false -> String.prefix "/" (String c s) = false.
Proof.
  intros Hc. cbn [String.prefix]. destruct (ascii_dec "/" c) as [E|]; [|reflexivity].
  subst c. discriminate.
Qed.

Lemma split_concat_names l :
  forallb is_name l = true ->
  fold_left (posixpath.normpath_step 1) (posixpath.split (String.concat "/" l)) []
  = l.
Proof.
  intros Hl. destruct (list_snoc l) as [->|(l' & x & ->)]; [reflexivity|].
  rewrite concat_snoc.
  pose proof (names_no_sep _ Hl) as Hs. rewrite forallb_app in Hs.
  apply andb_true_iff in Hs as [Hs1 Hs2]. cbn [forallb] in Hs2.
  rewrite andb_true_r in Hs2.
  rewrite split_slashed by assumption.
  now rewrite fold_normpath_step_names.
Qed.

Lemma normpath_render l :
  forallb is_name l = true -> posixpath.normpath (render l) = render l.
Proof.
  intros Hl. unfold posixpath.normpath, render, startswith.
  cbn [append String.eqb Ascii.eqb Bool.eqb andb].
  assert (Hp : String.prefix "//" (String "/" (String.concat "/" l)) = false).
  { destruct (concat_names_head l Hl) as [->|(c & s & -> & Hc)];
      [reflexivity|].
    cbn [String.prefix]. destruct (ascii_dec "/" "/"); [|congruence].
    destruct (ascii_dec "/" c) as [E|]; [|reflexivity].
    subst c. discriminate. }
  assert (Hq : String.prefix "/" (String "/" (String.concat "/" l)) = true).
  { cbn [String.prefix]. destruct (ascii_dec "/" "/"); [|congruence].
    now destruct (String.concat "/" l). }
  rewrite Hq, Hp. cbn [andb posixpath.repeat_sep].
  cbn [posixpath.split Ascii.eqb Bool.eqb posixpath.sep fold_left].
  change (posixpath.normpath_step 1 [] "") with (@nil str).
  now rewrite split_concat_names.
Qed.

(** *** [dirname] *)

Lemma head_no_sep s : no_sep s = true -> posixpath.head s = "".
Proof.
  induction s as [|c s IH]; [reflexivity|]. cbn [no_sep posixpath.head].
  rewrite andb_true_iff, negb_true_iff. intros [-> Hs]. now rewrite IH.
Qed.

Lemma head_app x y :
  posixpath.head y <> "" -> posixpath.head (x ++ y) = x ++ posixpath.head y.
Proof.
  intros Hy. induction x as [|c x IH]; [reflexivity|].
  cbn [append posixpath.head]. rewrite IH.
  destruct (x ++ posixpath.head y) as [|c' t] eqn:E.
  - destruct x; [cbn [append] in E; congruence|discriminate].
  - cbn [String.eqb negb]. now rewrite orb_true_r.
Qed.

Lemma head_sep_name x name :
  no_sep name = true -> posixpath.head (x ++ "/" ++ name) = x ++ "/".
Proof.
  intros Hn.
  assert (Hh : posixpath.head ("/" ++ name) = "/").
  { cbn [append posixpath.head]. now rewrite head_no_sep. }
  rewrite head_app; rewrite Hh; [reflexivity|discriminate].
Qed.

Lemma rstrip_sep_name d : no_sep d = true -> posixpath.rstrip_sep (d ++ "/") = d.
Proof.
  induction d as [|c d IH]; [reflexivity|]. cbn [no_sep].
  rewrite andb_true_iff, negb_true_iff. intros [Hc Hd].
  cbn [append posixpath.rstrip_sep]. now rewrite Hc, IH.
Qed.

Lemma rstrip_sep_app x y :
  posixpath.rstrip_sep y <> "" ->
  posixpath.rstrip_sep (x ++ y) = x ++ posixpath.rstrip_sep y.
Proof.
  intros Hy. induction x as [|c x IH]; [reflexivity|].
  cbn [append posixpath.rstrip_sep]. rewrite IH.
  destruct (x ++ posixpath.rstrip_sep y) as [|c' t] eqn:E.
  - destruct x; [cbn [append] in E; congruence|discriminate].
  - cbn [String.eqb]. now rewrite andb_false_r.
Qed.

Lemma all_sep_app x y :
  posixpath.all_sep (x ++ y) = posixpath.all_sep x && posixpath.all_sep y.
Proof.
  induction x as [|c x IH]; [reflexivity|].
  cbn [append posixpath.all_sep]. now rewrite IH, andb_assoc.
Qed.

Lemma dirname_render_snoc dir name :
  forallb is_name dir = true -> is_name name = true ->
  posixpath.dirname (render (dir ++ [name])%list) = render dir.
Proof.
  intros Hdir Hname.
  apply is_name_inv in Hname as (Hn & _).
  unfold posixpath.dirname. rewrite render_snoc.
  destruct (list_snoc dir) as [->|(dir' & d & ->)].
  - cbn [slashed append posixpath.head]. rewrite head_no_sep by assumption.
    reflexivity.
  - rewrite forallb_app in Hdir. apply andb_true_iff in Hdir as [_ Hd].
    cbn [forallb] in Hd. rewrite andb_true_r in Hd.
    apply is_name_inv in Hd as (Hds & _ & _ & c & d' & -> & Hc).
    rewrite slashed_snoc, render_snoc.
    replace ("/" ++ (slashed dir' ++ String c d' ++ "/") ++ name)
      with (("/" ++ slashed dir' ++ String c d') ++ "/" ++ name)
      by (now rewrite !append_assoc).
    rewrite head_sep_name by assumption.
    assert (Hall : posixpath.all_sep
                     (("/" ++ slashed dir' ++ String c d') ++ "/") = false).
    { rewrite !all_sep_app. cbn [posixpath.all_sep]. rewrite Hc.
      cbn [andb]. now rewrite !andb_false_r. }
    rewrite Hall. cbn [negb andb append String.eqb].
    change (String "/" ((slashed dir' ++ String c d') ++ "/"))
      with ("/" ++ (slashed dir' ++ String c d') ++ "/").
    rewrite !append_assoc.
    rewrite (rstrip_sep_app "/"), (rstrip_sep_app (slashed dir')).
    + now rewrite rstrip_sep_name.
    + rewrite rstrip_sep_name by assumption. discriminate.
    + rewrite (rstrip_sep_app (slashed dir')); rewrite rstrip_sep_name;
        try assumption; try discriminate.
      destruct (slashed dir'); discriminate.
Qed.

(** *** [join] *)

Lemma join_absolute a b : posixpath.isabs b = true -> posixpath.join a b = b.
Proof. unfold posixpath.join, posixpath.isabs. now intros ->. Qed.

Lemma isabs_render l : posixpath.isabs (render l) = true.
Proof.
  unfold posixpath.isabs, startswith, render. cbn [append String.prefix].
  destruct (ascii_dec "/" "/"); [|congruence].
  now destruct (String.concat "/" l).
Qed.

Lemma endswith_no_sep s : no_sep s = true -> endswith s "/" = false.
Proof.
  induction s as [|c s IH]; [reflexivity|]. cbn [no_sep].
  rewrite andb_true_iff, negb_true_iff. intros [Hc Hs].
  cbn [endswith String.eqb]. unfold posixpath.sep in Hc. rewrite Hc.
  now apply IH.
Qed.

Lemma endswith_app_name x c d :
  no_sep (String c d) = true -> endswith (x ++ String c d) "/" = false.
Proof.
  intros Hd. induction x as [|a x IH].
  - now apply endswith_no_sep.
  - cbn [append endswith String.eqb]. rewrite IH.
    destruct (x ++ String c d) eqn:E.
    + destruct x; discriminate.
    + cbn [String.eqb]. now destruct (Ascii.eqb a "/").
Qed.

Lemma concat_app (l1 l2 : list str) :
  l1 <> [] -> l2 <> [] ->
  String.concat "/" (l1 ++ l2)%list
  = String.concat "/" l1 ++ "/" ++ String.concat "/" l2.
Proof.
  intros H1 H2. induction l1 as [|a l1 IH]; [congruence|].
  destruct l1 as [|b l1].
  - destruct l2; [congruence|reflexivity].
  - cbn [app String.concat] in *. rewrite IH by discriminate.
    now rewrite !append_assoc.
Qed.

Lemma join_render_relative launch names :
  forallb is_name launch = true -> forallb is_name names = true ->
  names <> [] ->
  posixpath.isabs (String.concat "/" names) = false
  /\ posixpath.join (render launch) (String.concat "/" names)
     = render (launch ++ names)%list.
Proof.
  intros Hl Hn Hne.
  assert (Hrel : startswith (String.concat "/" names) "/" = false).
  { destruct (concat_names_head names Hn) as [->|(c & s & -> & Hc)];
      [congruence|]. now apply prefix_sep. }
  split; [exact Hrel|].
  unfold posixpath.join. rewrite Hrel. unfold render at 1 2.
  cbn [append String.eqb orb].
  destruct (list_snoc launch) as [->|(l' & d & ->)].
  - reflexivity.
  - rewrite forallb_app in Hl. apply andb_true_iff in Hl as [_ Hd].
    cbn [forallb] in Hd. rewrite andb_true_r in Hd.
    apply is_name_inv in Hd as (Hds & _ & _ & c & d' & -> & _).
    rewrite concat_snoc.
    change (String "/" (slashed l' ++ String c d'))
      with (("/" ++ slashed l') ++ String c d').
    rewrite endswith_app_name by assumption.
    unfold render.
    match goal with
    | |- context [String.concat "/" (?a ++ names)%list] =>
        rewrite (concat_app a names), concat_snoc
    end; try assumption.
    + now rewrite !append_assoc.
    + destruct l'; discriminate.
Qed.

(** The directory computed from [__file__] is the one that holds the
    script, however it was named. *)
Lemma target_is_script_directory launch i :
  forallb is_name launch = true -> forallb is_name (names_of i) = true ->
  target (render launch) (file_of i) = render (script_directory launch i).
Proof.
  intros Hl Hn. unfold target.
  destruct i as [dir name|dir name]; cbn [names_of file_of script_directory] in *.
  - rewrite isabs_render, normpath_render by assumption.
    rewrite forallb_app in Hn. apply andb_true_iff in Hn as [Hd Hx].
    cbn [forallb] in Hx. rewrite andb_true_r in Hx.
    now apply dirname_render_snoc.
  - destruct (join_render_relative launch (dir ++ [name])%list Hl Hn)
      as (Hrel & Hjoin); [destruct dir; discriminate|].
    rewrite Hrel, Hjoin, app_assoc.
    rewrite forallb_app in Hn. apply andb_true_iff in Hn as [Hd Hx].
    cbn [forallb] in Hx. rewrite andb_true_r in Hx.
    rewrite normpath_render, dirname_render_snoc;
      rewrite ?forallb_app, ?Hl, ?Hd; cbn [forallb andb]; auto.
    now rewrite Hx.
Qed.

End PathFacts.

(** ** The working directory *)

Section WorkingDirectory.
Context `{Collaborators}.


End WorkingDirectory.

(** ** Concrete runs *)









(** The theorem of C5, on the installation of [Example]. *)
Lemma listens_on_every_interface_port_8000_witness :
  @python Example.collaborators []
    (relaunched ["server.py"; "--port"; "9000"] [("PORT", "9000")]
       (Example.launched Example.willing))
  = (running,
     snd (@python Example.collaborators []
            (relaunched ["server.py"; "--port"; "9000"] [("PORT", "9000")]
               (Example.launched Example.willing))))
  /\ os.sock
       (snd (@python Example.collaborators []
               (relaunched ["server.py"; "--port"; "9000"] [("PORT", "9000")]
                  (Example.launched Example.willing))))
     = os.listening "" 8000
  /\ exists file,
      os.trace
        (snd (@python Example.collaborators []
                (relaunched ["server.py"; "--port"; "9000"] [("PORT", "9000")]
                   (Example.launched Example.willing))))
      = calls_of_startup "/home/dev" file.
Proof.
  apply conj; [vm_compute; reflexivity|].
  apply (listens_on_every_interface_port_8000
           (H := Example.collaborators) [] (Example.launched Example.willing)
           _ ["server.py"; "--port"; "9000"] [("PORT", "9000")]).
  vm_compute; reflexivity.
Defined.

(** The theorem of C6, on the installation of [Example]. *)
Lemma startup_failure_is_fatal_witness :
  startup_failure (Example.launched Example.port_taken)
  = Some (binding, OSError 98)
  /\ exists w' calls,
      Example.run Example.port_taken [] = (exited 1, w')
      /\ os.stderr w' = ["OSError: [Errno 98]"]
      /\ os.stdout w' = []
      /\ os.sent w' = []
      /\ (os.sock w' = os.no_socket \/ os.sock w' = os.closed)
      /\ os.trace w' = calls
      /\ NoDup calls.
Proof.
  apply conj; [vm_compute; reflexivity|].
  apply (startup_failure_is_fatal
           (H := Example.collaborators) [] (Example.launched Example.port_taken)
           binding (OSError 98)).
  vm_compute; reflexivity.
Defined.

(** The theorem of C7, on the installation of [Example]. *)
Lemma serve_loop_ends_only_by_exception_witness :
  startup_failure (Example.launched Example.willing) = None
  /\ (forall w',
         @main Example.collaborators
           [Example.one_client Example.get_index; socketserver.idle;
            Example.one_client Example.get_missing]
           (Example.launched Example.willing) <> Ok tt w')
  /\ (forallb survivable
        [Example.one_client Example.get_index; socketserver.idle;
         Example.one_client Example.get_missing] = true ->
      exists w',
        Example.run Example.willing
          [Example.one_client Example.get_index; socketserver.idle;
           Example.one_client Example.get_missing]
        = (running, w')
        /\ length (os.sent w') = 2%nat)
  /\ (forallb survivable
        [Example.one_client Example.get_index; socketserver.idle;
         Example.one_client Example.get_missing] = false ->
      exists e w',
        @main Example.collaborators
          [Example.one_client Example.get_index; socketserver.idle;
           Example.one_client Example.get_missing]
          (Example.launched Example.willing) = Raise e w').
Proof.
  apply conj; [vm_compute; reflexivity|].
  apply (serve_loop_ends_only_by_exception
           (H := Example.collaborators)
           [Example.one_client Example.get_index; socketserver.idle;
            Example.one_client Example.get_missing]
           (Example.launched Example.willing)).
  vm_compute; reflexivity.
Defined.



(** * Further properties *)

(** ** The override of [end_headers] *)

Section Override.
Context `{Collaborators}.

(** X1.  Where the inherited [end_headers] fails, the headers buffer never
    having been created, the override succeeds: its first [send_header]
    creates the buffer, and the block sent is the three lines and the
    blank line. *)
Theorem end_headers_succeeds_without_buffer (h : handler) :
  request_version h <> "HTTP/0.9" ->
  _headers_buffer h = None ->
  BaseHTTPRequestHandler_end_headers h
  = Raise (AttributeError "_headers_buffer") h
  /\ exists h',
      NoCacheHTTPRequestHandler_end_headers h = Ok tt h'
      /\ wfile h' = wfile h ++ join_bytes (anti_cache ++ [CRLF])
      /\ _headers_buffer h' = Some [].
Proof.
  intros Hv Hb. apply sends_headers_iff in Hv. split.
  - now apply base_end_headers_unset.
  - exists (finalized anti_cache h). split; [apply no_cache_end_headers_eq|].
    unfold finalized, pending. rewrite Hv, Hb. split; reflexivity.
Qed.


(** X3.  The override does not guard against being called again: a
    second call sends a second block, made of the three lines and the
    blank line. *)
Theorem end_headers_twice (h : handler) :
  request_version h <> "HTTP/0.9" ->
  exists h',
    (NoCacheHTTPRequestHandler_end_headers ;;
     NoCacheHTTPRequestHandler_end_headers)%py h = Ok tt h'
    /\ wfile h' = wfile h
                  ++ join_bytes (pending h ++ anti_cache ++ [CRLF])
                  ++ join_bytes (anti_cache ++ [CRLF]).
Proof.
  intros Hv. apply sends_headers_iff in Hv.
  rewrite (bind_Ok _ _ _ _ _ (no_cache_end_headers_eq h)).
  exists (finalized anti_cache (finalized anti_cache h)).
  split; [apply no_cache_end_headers_eq|].
  unfold finalized at 1.
  assert (Hv' : sends_headers (finalized anti_cache h) = true).
  { unfold finalized. now rewrite Hv. }
  rewrite Hv'. unfold finalized. rewrite Hv.
  cbn [wfile set_wfile set_headers_buffer pending _headers_buffer app].
  now rewrite append_assoc.
Qed.

End Override.

(** ** More answers of the handler *)

Section MoreResponses.
Context `{Collaborators}.
Variable cls : RequestHandlerClass.
Variable extra : list bytes.
Hypothesis Hcls : finalizes_with cls extra.

Lemma send_head_redirect h :
  isdir (fs h) (translate_path (directory h) (path h)) = true ->
  endswith (urlsplit_path (path h)) "/" = false ->
  exists h',
    @send_head _ cls h = Ok None h'
    /\ wfile h' = emitted h (redirect_block (path h)) extra "".
Proof.
  intros Hd Hu. unfold send_head, redirect_block.
  rewrite bind_get, Hd, Hu. cbn [negb]. repeat step. sent.
Qed.

Lemma list_directory_lists dir names h :
  listdir (fs h) dir = Some names ->
  exists h',
    @list_directory _ cls dir h
    = Ok (Some (directory_page (fs h) dir (path h) names)) h'
    /\ wfile h'
       = emitted h (listing_block (directory_page (fs h) dir (path h) names))
           extra "".
Proof.
  intros Hl. unfold list_directory, listing_block.
  rewrite bind_get, Hl. repeat step. sent.
Qed.

Lemma send_head_not_directory h :
  isdir (fs h) (translate_path (directory h) (path h)) = false ->
  @send_head _ cls h
  = @send_head_file _ cls (translate_path (directory h) (path h)) h.
Proof. intros Hd. unfold send_head. now rewrite bind_get, Hd. Qed.

Lemma send_head_index h index :
  isdir (fs h) (translate_path (directory h) (path h)) = true ->
  endswith (urlsplit_path (path h)) "/" = true ->
  find (isfile (fs h))
       (map (posixpath.join (translate_path (directory h) (path h)))
            ["index.html"; "index.htm"]) = Some index ->
  @send_head _ cls h = @send_head_file _ cls index h.
Proof.
  intros Hd Hu Hi. unfold send_head. rewrite bind_get, Hd, Hu.
  cbn [negb]. now rewrite Hi.
Qed.

Lemma send_head_listing h :
  isdir (fs h) (translate_path (directory h) (path h)) = true ->
  endswith (urlsplit_path (path h)) "/" = true ->
  find (isfile (fs h))
       (map (posixpath.join (translate_path (directory h) (path h)))
            ["index.html"; "index.htm"]) = None ->
  @send_head _ cls h
  = @list_directory _ cls (translate_path (directory h) (path h)) h.
Proof.
  intros Hd Hu Hi. unfold send_head. rewrite bind_get, Hd, Hu.
  cbn [negb]. now rewrite Hi.
Qed.

End MoreResponses.

Section ByCommand.
Context `{Collaborators}.

Lemma handle_method_GET cls files cwd r :
  req_command r = "GET" ->
  @handle_method _ cls (parsed files cwd r) = @do_GET _ cls (parsed files cwd r).
Proof.
  intros Hc. unfold handle_method. rewrite bind_get.
  cbn [parsed command]. now rewrite Hc.
Qed.

Lemma handle_method_HEAD cls files cwd r :
  req_command r = "HEAD" ->
  @handle_method _ cls (parsed files cwd r) = @do_HEAD _ cls (parsed files cwd r).
Proof.
  intros Hc. unfold handle_method. rewrite bind_get.
  cbn [parsed command]. now rewrite Hc.
Qed.

Lemma handle_method_other cls files cwd r :
  req_command r <> "GET" -> req_command r <> "HEAD" ->
  @handle_method _ cls (parsed files cwd r)
  = @send_error _ cls 501
      (Some ("Unsupported method (" ++ repr (req_command r) ++ ")")) None
      (parsed files cwd r).
Proof.
  intros Hg Hh. unfold handle_method. rewrite bind_get.
  cbn [parsed command]. apply String.eqb_neq in Hg, Hh. now rewrite Hg, Hh.
Qed.

(** The body of an error page, by the method of the request. *)
Lemma error_body_parsed files cwd r c code message explain :
  omits_body code = false ->
  error_body (parsed files cwd (with_command c r)) code message explain
  = if String.eqb c "HEAD" then "" else error_page code message explain.
Proof. intros Ho. unfold error_body. now rewrite Ho. Qed.

Lemma send_head_file_by_command files cwd r q :
  exists ret block page,
    sends_by_command (fun cls => @send_head_file _ cls q) files cwd r
      ret block page.
Proof.
  unfold sends_by_command.
  destruct (endswith q "/") eqn:Hs.
  { exists None, (error_block 404 (Some "File not found") None),
      (error_page 404 (Some "File not found") None).
    intros c cls extra Hcls.
    destruct (send_head_file_missing cls extra Hcls q
                (parsed files cwd (with_command c r)) (or_introl Hs))
      as (h' & Hr & Hw).
    exists h'. split; [exact Hr|].
    now rewrite Hw, emitted_parsed, error_body_parsed. }
  destruct (open_rb files q) as [f|] eqn:Ho.
  2:{ exists None, (error_block 404 (Some "File not found") None),
        (error_page 404 (Some "File not found") None).
      intros c cls extra Hcls.
      destruct (send_head_file_missing cls extra Hcls q
                  (parsed files cwd (with_command c r)) (or_intror Ho))
        as (h' & Hr & Hw).
      exists h'. split; [exact Hr|].
      now rewrite Hw, emitted_parsed, error_body_parsed. }
  destruct (not_modified (parsed files cwd r) f) eqn:Hn.
  - exists None, (response_head 304 (phrase 304)), "".
    intros c cls extra Hcls.
    destruct (send_head_file_not_modified cls extra Hcls q f
                (parsed files cwd (with_command c r)) Hs Ho Hn)
      as (h' & Hr & Hw).
    exists h'. split; [exact Hr|]. rewrite Hw, emitted_parsed.
    now destruct (String.eqb c "HEAD").
  - exists (Some (data f)), (file_block q f), "".
    intros c cls extra Hcls.
    destruct (send_head_file_found cls extra Hcls q f
                (parsed files cwd (with_command c r)) Hs Ho Hn)
      as (h' & Hr & Hw).
    exists h'. split; [exact Hr|]. rewrite Hw, emitted_parsed.
    now destruct (String.eqb c "HEAD").
Qed.

Lemma list_directory_by_command files cwd r dir :
  exists ret block page,
    sends_by_command (fun cls => @list_directory _ cls dir) files cwd r
      ret block page.
Proof.
  unfold sends_by_command.
  destruct (listdir files dir) as [names|] eqn:Hl.
  - exists (Some (directory_page files dir (req_path r) names)),
      (listing_block (directory_page files dir (req_path r) names)), "".
    intros c cls extra Hcls.
    destruct (list_directory_lists cls extra Hcls dir names
                (parsed files cwd (with_command c r)) Hl)
      as (h' & Hr & Hw).
    exists h'. split; [exact Hr|]. rewrite Hw, emitted_parsed.
    now destruct (String.eqb c "HEAD").
  - exists None,
      (error_block 404 (Some "No permission to list directory") None),
      (error_page 404 (Some "No permission to list directory") None).
    intros c cls extra Hcls.
    destruct (send_error_sends cls extra Hcls 404
                (Some "No permission to list directory") None
                (parsed files cwd (with_command c r)))
      as (h' & Hr & Hw).
    exists h'. split.
    + unfold list_directory. rewrite bind_get. cbn [parsed fs]. rewrite Hl.
      now rewrite (bind_Ok _ _ _ _ _ Hr).
    + now rewrite Hw, emitted_parsed, error_body_parsed.
Qed.

Lemma send_head_by_command files cwd r :
  exists ret block page,
    sends_by_command (fun cls => @send_head _ cls) files cwd r ret block page.
Proof.
  set (p := translate_path cwd (req_path r)).
  destruct (isdir files p) eqn:Hd.
  - destruct (endswith (urlsplit_path (req_path r)) "/") eqn:Hu.
    + destruct (find (isfile files)
                  (map (posixpath.join p) ["index.html"; "index.htm"]))
        as [index|] eqn:Hi.
      * destruct (send_head_file_by_command files cwd r index)
          as (ret & block & page & Hrun).
        exists ret, block, page. intros c cls extra Hcls.
        rewrite (send_head_index cls _ index) by assumption.
        now apply Hrun.
      * destruct (list_directory_by_command files cwd r p)
          as (ret & block & page & Hrun).
        exists ret, block, page. intros c cls extra Hcls.
        rewrite send_head_listing by assumption. now apply Hrun.
    + exists None, (redirect_block (req_path r)), "".
      intros c cls extra Hcls.
      destruct (send_head_redirect cls extra Hcls
                  (parsed files cwd (with_command c r)) Hd Hu)
        as (h' & Hr & Hw).
      exists h'. split; [exact Hr|]. rewrite Hw, emitted_parsed.
      now destruct (String.eqb c "HEAD").
  - destruct (send_head_file_by_command files cwd r p)
      as (ret & block & page & Hrun).
    exists ret, block, page. intros c cls extra Hcls.
    rewrite send_head_not_directory by assumption. now apply Hrun.
Qed.

End ByCommand.

(** ** The answers of [NoCacheHTTPRequestHandler], path by path *)

Section Answered.
Context `{Collaborators}.

Lemma index_no_slash p b :
  In b ["index.html"; "index.htm"] ->
  endswith (posixpath.join p b) "/" = false.
Proof.
  intros [<-|[<-|[]]]; unfold posixpath.join.
  - change (startswith "index.html" "/") with false. cbv iota.
    destruct (String.eqb p "" || endswith p "/").
    + now apply endswith_app_name.
    + rewrite <- append_assoc. now apply endswith_app_name.
  - change (startswith "index.htm" "/") with false. cbv iota.
    destruct (String.eqb p "" || endswith p "/").
    + now apply endswith_app_name.
    + rewrite <- append_assoc. now apply endswith_app_name.
Qed.

Lemma response_body version block extra x y :
  response version block extra x ++ y = response version block extra (x ++ y).
Proof. unfold response. now rewrite append_assoc. Qed.





End Answered.

Section Revalidation.
Context `{Collaborators}.



End Revalidation.

(** ** What the loop sends *)

Section Served.
Context `{Collaborators}.

Lemma finish_request_answer self peer files r w :
  socketserver.RequestHandlerClass self = NoCacheHTTPRequestHandler ->
  exists w',
    socketserver.finish_request self (socketserver.client peer files r) w
    = Ok tt w'
    /\ os.sent w' = (os.sent w ++ [answer (os.cwd w) files r])%list.
Proof.
  intros Hcls. unfold socketserver.finish_request, answer. rewrite Hcls.
  destruct (handle_method_sends (parsed files (os.cwd w) r) (req_command r)
              eq_refl) as (block & body & Hrun).
  destruct (Hrun _ _ no_cache_finalizes) as (h' & Hr & _).
  rewrite Hr. eexists. split; reflexivity.
Qed.

Lemma handle_request_noblock_answer self c w :
  socketserver.RequestHandlerClass self = NoCacheHTTPRequestHandler ->
  survivable (socketserver.accepted c) = true ->
  exists w',
    socketserver.handle_request_noblock self c w = Ok tt w'
    /\ os.sent w'
       = (os.sent w ++ answers (os.cwd w) [socketserver.accepted c])%list.
Proof.
  intros Hcls Hsurv.
  unfold socketserver.handle_request_noblock, socketserver.process_request,
    try_except.
  destruct c as [peer files r|peer e].
  - destruct (finish_request_answer self peer files r w Hcls) as (w' & Hr & Hl).
    rewrite Hr. exists w'. split; [reflexivity|exact Hl].
  - cbn [survivable] in Hsurv. cbn [socketserver.finish_request].
    rewrite Hsurv. eexists. split; [reflexivity|].
    cbn [answers]. now rewrite app_nil_r.
Qed.

(** Events that do not end the loop are taken one by one; each client is
    answered from the directory of the process, and the loop goes on
    with what follows. *)
Lemma serve_loop_app self pre rest w :
  socketserver.shutdown_request self = false ->
  socketserver.RequestHandlerClass self = NoCacheHTTPRequestHandler ->
  forallb survivable pre = true ->
  exists w1,
    socketserver.serve_loop self (pre ++ rest) w
    = socketserver.serve_loop self rest w1
    /\ os.sent w1 = (os.sent w ++ answers (os.cwd w) pre)%list
    /\ same_process w w1.
Proof.
  intros Hflag Hcls. revert w.
  induction pre as [|ev pre IH]; intros w Hsurv.
  - exists w. cbn [app answers]. rewrite app_nil_r.
    split; [reflexivity|split; [reflexivity|apply same_process_refl]].
  - cbn [forallb] in Hsurv. apply andb_true_iff in Hsurv as [Hev Hpre].
    cbn [app socketserver.serve_loop]. rewrite Hflag.
    assert (Hstep : exists w0,
               match ev with
               | socketserver.idle => ret tt
               | socketserver.accept_error _ => ret tt
               | socketserver.accepted c =>
                   socketserver.handle_request_noblock self c
               | socketserver.interrupt e => raise e
               end w = Ok tt w0
               /\ os.sent w0 = (os.sent w ++ answers (os.cwd w) [ev])%list
               /\ same_process w w0).
    { destruct ev as [|errno|c|e].
      - exists w. cbn [answers]. rewrite app_nil_r.
        split; [reflexivity|split; [reflexivity|apply same_process_refl]].
      - exists w. cbn [answers]. rewrite app_nil_r.
        split; [reflexivity|split; [reflexivity|apply same_process_refl]].
      - destruct (handle_request_noblock_answer self c w Hcls Hev)
          as (w0 & Hr & Hl).
        exists w0. split; [exact Hr|split; [exact Hl|]].
        pose proof (handle_request_noblock_same self c w) as Hs.
        rewrite Hr in Hs. exact Hs.
      - discriminate. }
    destruct Hstep as (w0 & Hr & Hl & Hs).
    rewrite (bind_Ok _ _ _ _ _ Hr).
    destruct (IH w0 Hpre) as (w1 & Hr1 & Hl1 & Hs1).
    exists w1. split; [|split].
    + exact Hr1.
    + rewrite Hl1, Hl. destruct Hs as (_ & -> & _).
      rewrite <- app_assoc. f_equal.
      destruct ev as [|errno|[peer files r|peer e]|e]; reflexivity.
    + eapply same_process_trans; eassumption.
Qed.

End Served.

(** ** Every run of the script *)

Section Runs.
Context `{Collaborators}.

(** A script that starts enters the loop with the banner printed. *)
Lemma started_run w :
  startup_failure w = None ->
  exists file w1,
    os.dunder_file w = Some file
    /\ (forall events,
        main events w
        = try_finally (socketserver.serve_loop httpd events)
            (socketserver.server_close httpd) (announced w1))
    /\ os.cwd w1 = posixpath.join (os.cwd w) (target (os.cwd w) file)
    /\ os.sock w1 = os.listening "" PORT
    /\ os.trace w1 = (os.trace w ++ calls_of_startup (os.cwd w) file)%list
    /\ untouched w w1.
Proof.
  intros Hstart. pose proof (startup_spec w) as Hs. rewrite Hstart in Hs.
  destruct Hs as (file & w1 & Hf & Hrun & Hc & Hk & Ht & Hu).
  exists file, w1. split; [exact Hf|]. split; [|auto].
  intros events.
  now rewrite main_eq, (bind_Ok _ _ _ _ _ Hrun), serving_eq.
Qed.

(** What the interpreter adds when it reports an exception leaves the
    rest of the process alone. *)
Lemma python_raise events w e w1 :
  main events w = Raise e w1 ->
  exists w',
    python events w = (exited (exit_code e), w')
    /\ os.cwd w' = os.cwd w1 /\ os.stdout w' = os.stdout w1
    /\ os.sock w' = os.sock w1 /\ os.sent w' = os.sent w1
    /\ os.trace w' = os.trace w1.
Proof.
  intros Hm. unfold python. rewrite Hm. eexists. split; [reflexivity|].
  destruct e; repeat apply conj; reflexivity.
Qed.

Lemma close_after_raise e w :
  bind (socketserver.server_close httpd) (fun _ => raise e) w
  = Raise e (os.with_sock os.closed
               (os.with_trace (os.trace w ++ [os.sys_close])%list w))
    :> result os.process unit.
Proof. reflexivity. Qed.



(** X12.  The script never exits with its socket open.  Whatever the
    answers of the system and whatever the loop meets, once the
    interpreter has exited the socket is closed, or none was ever
    opened. *)
Theorem socket_is_never_left_open
        (events : list socketserver.event) (w w' : os.process) (code : Z) :
  os.sock w = os.no_socket ->
  python events w = (exited code, w') ->
  os.sock w' = os.closed \/ os.sock w' = os.no_socket.
Proof.
  intros Hno Hpy.
  assert (Hm : exists e w1, main events w = Raise e w1 /\ os.sock w' = os.sock w1).
  { unfold python in Hpy.
    destruct (main events w) as [[] w1|e w1|w1] eqn:Hm.
    - now destruct (main_never_returns events w w1).
    - exists e, w1. split; [reflexivity|].
      injection Hpy as _ <-. now destruct e.
    - discriminate. }
  destruct Hm as (e & w1 & Hm & ->).
  rewrite main_eq in Hm. unfold bind in Hm.
  pose proof (startup_spec w) as Hs.
  destruct (startup_failure w) as [[s e0]|].
  - destruct Hs as (w2 & Hrun & _ & Hsock & _).
    rewrite Hrun in Hm. injection Hm as _ <-.
    destruct Hsock as [->| ->]; auto.
  - destruct Hs as (file & w2 & _ & Hrun & _).
    rewrite Hrun in Hm.
    pose proof (serving_spec _ events w2 startup_server_flag) as Hv.
    rewrite Hm in Hv. destruct Hv as (_ & _ & -> & _). now left.
Qed.



End Runs.

(** ** The access log *)

Section LogAlgebra.
Context `{Collaborators}.

Lemma stderr_logged text h :
  stderr (logged text h) = (stderr h ++ [log_line text])%list.
Proof. reflexivity. Qed.

Lemma stderr_buffered lines h : stderr (buffered lines h) = stderr h.
Proof. crunch h. Qed.

Lemma stderr_finalized extra h : stderr (finalized extra h) = stderr h.
Proof. crunch h. Qed.

Lemma stderr_close b h : stderr (set_close_connection b h) = stderr h.
Proof. reflexivity. Qed.

Lemma both_hold {A} (m : M handler A) h r (P Q : handler -> Prop) :
  (exists h', m h = Ok r h' /\ P h') ->
  (exists h', m h = Ok r h' /\ Q h') ->
  exists h', m h = Ok r h' /\ P h' /\ Q h'.
Proof.
  intros (h1 & H1 & HP) (h2 & H2 & HQ). rewrite H1 in H2.
  injection H2 as <-. now exists h1.
Qed.

End LogAlgebra.

Create Rewrite HintDb noted.
#[local] Hint Rewrite @stderr_logged @stderr_buffered @stderr_finalized
  @stderr_close : noted.

(** Closing a goal [exists h', Ok r st = Ok r h' /\ stderr h' = ...]. *)
Ltac noted :=
  unfold ret; eexists; (split; [reflexivity|]);
  unfold set_wfile; cbn [stderr]; autorewrite with handler;
  autorewrite with noted; unfold access_line; rewrite <- ?app_assoc;
  cbn [app]; reflexivity.

Section Logs.
Context `{Collaborators}.
Variable cls : RequestHandlerClass.
Variable extra : list bytes.
Hypothesis Hcls : finalizes_with cls extra.

Lemma send_error_logs code message explain h :
  exists h',
    @send_error _ cls code message explain h = Ok tt h'
    /\ stderr h'
       = (stderr h
          ++ [log_line ("code " ++ str_of_int code ++ ", message "
                        ++ error_message code message)%string;
              access_line (requestline h) code])%list.
Proof.
  unfold send_error, error_message.
  destruct (responses code) as [[shortmsg longmsg]|] eqn:Er.
  all: destruct (omits_body code) eqn:Eo.
  all: repeat step.
  all: autorewrite with handler.
  all: try set (page := error_content _ _ _).
  all: try (destruct (command h) as [c|]; [destruct (String.eqb c "HEAD")|]).
  all: try destruct (String.eqb_spec page "") as [Ep|Ep].
  all: cbn [negb andb when].
  all: noted.
Qed.

Lemma send_head_file_missing_logs path h :
  endswith path "/" = true \/ open_rb (fs h) path = None ->
  exists h',
    @send_head_file _ cls path h = Ok None h'
    /\ stderr h'
       = (stderr h
          ++ [log_line "code 404, message File not found";
              access_line (requestline h) 404])%list.
Proof.
  intros Hmiss.
  destruct (send_error_logs 404 (Some "File not found") None h)
    as (h' & Hrun & Hw).
  exists h'. split; [|exact Hw].
  unfold send_head_file. rewrite bind_get.
  destruct (endswith path "/").
  - now rewrite (bind_Ok _ _ _ _ _ Hrun).
  - destruct Hmiss as [Hmiss|Hmiss]; [discriminate|].
    rewrite Hmiss. now rewrite (bind_Ok _ _ _ _ _ Hrun).
Qed.

Lemma send_head_file_not_modified_logs path f h :
  endswith path "/" = false -> open_rb (fs h) path = Some f ->
  not_modified h f = true ->
  exists h',
    @send_head_file _ cls path h = Ok None h'
    /\ stderr h' = (stderr h ++ [access_line (requestline h) 304])%list.
Proof.
  intros Hs Ho Hn. unfold send_head_file.
  rewrite bind_get, Hs, Ho, Hn. repeat step. noted.
Qed.

Lemma send_head_file_found_logs path f h :
  endswith path "/" = false -> open_rb (fs h) path = Some f ->
  not_modified h f = false ->
  exists h',
    @send_head_file _ cls path h = Ok (Some (data f)) h'
    /\ stderr h' = (stderr h ++ [access_line (requestline h) 200])%list.
Proof.
  intros Hs Ho Hn. unfold send_head_file.
  rewrite bind_get, Hs, Ho, Hn. repeat step. noted.
Qed.

Lemma send_head_redirect_logs h :
  isdir (fs h) (translate_path (directory h) (path h)) = true ->
  endswith (urlsplit_path (path h)) "/" = false ->
  exists h',
    @send_head _ cls h = Ok None h'
    /\ stderr h' = (stderr h ++ [access_line (requestline h) 301])%list.
Proof.
  intros Hd Hu. unfold send_head.
  rewrite bind_get, Hd, Hu. cbn [negb]. repeat step. noted.
Qed.

Lemma list_directory_lists_logs dir names h :
  listdir (fs h) dir = Some names ->
  exists h',
    @list_directory _ cls dir h
    = Ok (Some (directory_page (fs h) dir (path h) names)) h'
    /\ stderr h' = (stderr h ++ [access_line (requestline h) 200])%list.
Proof.
  intros Hl. unfold list_directory.
  rewrite bind_get, Hl. repeat step. noted.
Qed.

End Logs.

Section StatusLogged.
Context `{Collaborators}.
Variable cls : RequestHandlerClass.
Variable extra : list bytes.
Hypothesis Hcls : finalizes_with cls extra.

Lemma answered_intro {A} (m : M handler A) h (r : A) code message rest body
      notes :
  (exists h',
      m h = Ok r h'
      /\ wfile h' = emitted h (status_line code message :: rest) extra body) ->
  (exists h',
      m h = Ok r h'
      /\ stderr h'
         = (stderr h ++ notes ++ [access_line (requestline h) code])%list) ->
  answered m extra h r code.
Proof.
  intros Hw Hl. destruct (both_hold m h r _ _ Hw Hl) as (h' & Hr & Hw' & Hl').
  now exists message, rest, body, notes, h'.
Qed.

Lemma send_error_answered code message explain h :
  answered (@send_error _ cls code message explain) extra h tt code.
Proof.
  apply (answered_intro _ h tt code (error_message code message)
           (tl (error_block code message explain))
           (error_body h code message explain)
           [log_line ("code " ++ str_of_int code ++ ", message "
                      ++ error_message code message)%string]).
  - exact (send_error_sends cls extra Hcls code message explain h).
  - exact (send_error_logs cls extra Hcls code message explain h).
Qed.

Lemma send_head_file_answered path h :
  exists r code, answered (@send_head_file _ cls path) extra h r code.
Proof.
  destruct (endswith path "/") eqn:Hs.
  { exists None, 404.
    apply (answered_intro _ h None 404 "File not found"
             (tl (error_block 404 (Some "File not found") None))
             (error_body h 404 (Some "File not found") None)
             [log_line "code 404, message File not found"]).
    - apply (send_head_file_missing cls extra Hcls). now left.
    - apply (send_head_file_missing_logs cls extra Hcls). now left. }
  destruct (open_rb (fs h) path) as [f|] eqn:Ho.
  2:{ exists None, 404.
      apply (answered_intro _ h None 404 "File not found"
               (tl (error_block 404 (Some "File not found") None))
               (error_body h 404 (Some "File not found") None)
               [log_line "code 404, message File not found"]).
      - apply (send_head_file_missing cls extra Hcls). now right.
      - apply (send_head_file_missing_logs cls extra Hcls). now right. }
  destruct (not_modified h f) eqn:Hn.
  - exists None, 304.
    apply (answered_intro _ h None 304 (phrase 304)
             (tl (response_head 304 (phrase 304))) "" []).
    + now apply (send_head_file_not_modified cls extra Hcls path f).
    + now apply (send_head_file_not_modified_logs cls extra Hcls path f).
  - exists (Some (data f)), 200.
    apply (answered_intro _ h (Some (data f)) 200 (phrase 200)
             (tl (file_block path f)) "" []).
    + now apply (send_head_file_found cls extra Hcls path f).
    + now apply (send_head_file_found_logs cls extra Hcls path f).
Qed.

Lemma list_directory_answered dir h :
  exists r code, answered (@list_directory _ cls dir) extra h r code.
Proof.
  destruct (listdir (fs h) dir) as [names|] eqn:Hl.
  - exists (Some (directory_page (fs h) dir (path h) names)), 200.
    apply (answered_intro _ h _ 200 (phrase 200)
             (tl (listing_block (directory_page (fs h) dir (path h) names)))
             "" []).
    + now apply (list_directory_lists cls extra Hcls).
    + now apply (list_directory_lists_logs cls extra Hcls).
  - exists None, 404.
    destruct (send_error_answered 404 (Some "No permission to list directory")
                None h)
      as (message & rest & body & notes & h' & Hr & Hw & Hlog).
    exists message, rest, body, notes, h'. split; [|now split].
    unfold list_directory. rewrite bind_get, Hl.
    now rewrite (bind_Ok _ _ _ _ _ Hr).
Qed.

Lemma send_head_answered h :
  exists r code, answered (@send_head _ cls) extra h r code.
Proof.
  destruct (isdir (fs h) (translate_path (directory h) (path h))) eqn:Hd.
  - destruct (endswith (urlsplit_path (path h)) "/") eqn:Hu.
    + destruct (find (isfile (fs h))
                  (map (posixpath.join (translate_path (directory h) (path h)))
                       ["index.html"; "index.htm"])) as [index|] eqn:Hi.
      * destruct (send_head_file_answered index h) as (r & code & Ha).
        exists r, code. unfold answered in *.
        now rewrite (send_head_index cls h index Hd Hu Hi).
      * destruct (list_directory_answered
                    (translate_path (directory h) (path h)) h)
          as (r & code & Ha).
        exists r, code. unfold answered in *.
        now rewrite (send_head_listing cls h Hd Hu Hi).
    + exists None, 301.
      apply (answered_intro _ h None 301 (phrase 301)
               (tl (redirect_block (path h))) "" []).
      * now apply (send_head_redirect cls extra Hcls).
      * now apply (send_head_redirect_logs cls extra Hcls).
  - destruct (send_head_file_answered
                (translate_path (directory h) (path h)) h) as (r & code & Ha).
    exists r, code. unfold answered in *.
    now rewrite (send_head_not_directory cls h Hd).
Qed.

Lemma handle_method_answered h c :
  command h = Some c ->
  exists code, answered (@handle_method _ cls) extra h tt code.
Proof.
  intros Hc.
  assert (Hm : @handle_method _ cls h
               = (if String.eqb c "GET" then @do_GET _ cls
                  else if String.eqb c "HEAD" then @do_HEAD _ cls
                  else @send_error _ cls 501
                         (Some ("Unsupported method (" ++ repr c ++ ")"))
                         None) h).
  { unfold handle_method. now rewrite bind_get, Hc. }
  destruct (String.eqb c "GET").
  - destruct (send_head_answered h)
      as (r & code & message & rest & body & notes & h' & Hr & Hw & Hl).
    exists code. unfold answered. rewrite Hm. unfold do_GET.
    rewrite (bind_Ok _ _ _ _ _ Hr). destruct r as [content|].
    + exists message, rest, (body ++ content), notes. eexists.
      split; [reflexivity|]. unfold set_wfile. cbn [wfile stderr].
      split; [|exact Hl]. rewrite Hw. unfold emitted.
      now rewrite !append_assoc.
    + now exists message, rest, body, notes, h'.
  - destruct (String.eqb c "HEAD").
    + destruct (send_head_answered h)
        as (r & code & message & rest & body & notes & h' & Hr & Hw & Hl).
      exists code. unfold answered. rewrite Hm. unfold do_HEAD.
      rewrite (bind_Ok _ _ _ _ _ Hr).
      now exists message, rest, body, notes, h'.
    + exists 501. unfold answered. rewrite Hm. apply send_error_answered.
Qed.

End StatusLogged.

Section AccessLog.
Context `{Collaborators}.


End AccessLog.

(** ** A handler that fails *)

Section Failures.
Context `{Collaborators}.

(** Served by [NoCacheHTTPRequestHandler], no connection leaves the
    server waiting: a handler returns or raises. *)
Lemma handle_request_noblock_ends self c w w' :
  socketserver.RequestHandlerClass self = NoCacheHTTPRequestHandler ->
  socketserver.handle_request_noblock self c w <> Blocked w'.
Proof.
  intros Hcls.
  unfold socketserver.handle_request_noblock, socketserver.process_request,
    try_except.
  destruct c as [peer files r|peer e].
  - destruct (finish_request_client self peer files r w Hcls) as (w1 & -> & _).
    discriminate.
  - cbn [socketserver.finish_request].
    destruct (is_Exception e); discriminate.
Qed.

(** A loop that waits for its next event goes on with it. *)
Lemma serve_loop_continues self pre rest w w1 :
  socketserver.RequestHandlerClass self = NoCacheHTTPRequestHandler ->
  socketserver.serve_loop self pre w = Blocked w1 ->
  socketserver.serve_loop self (pre ++ rest) w
  = socketserver.serve_loop self rest w1.
Proof.
  intros Hcls. revert w. induction pre as [|ev pre IH]; intros w Hrun.
  - cbn [socketserver.serve_loop] in Hrun.
    destruct (socketserver.shutdown_request self); [discriminate|].
    now injection Hrun as <-.
  - cbn [app socketserver.serve_loop] in *.
    destruct (socketserver.shutdown_request self) eqn:Hflag; [discriminate|].
    unfold bind in *.
    destruct ev as [|errno|c|e]; cbn [ret raise] in *.
    + now apply IH.
    + now apply IH.
    + pose proof (handle_request_noblock_ends self c w) as Hends.
      destruct (socketserver.handle_request_noblock self c w)
        as [[] w0|e0 w0|w0]; [now apply IH|discriminate|].
      now destruct (Hends w0 Hcls).
    + discriminate.
Qed.


End Failures.

(** ** Paths with ['.'] and ['..'] *)

Section DottedPaths.

Lemma is_step_inv d :
  is_step d = true ->
  no_sep d = true
  /\ exists c d', d = String c d' /\ Ascii.eqb c posixpath.sep = false.
Proof.
  unfold is_step. rewrite !orb_true_iff. intros [[Hd|Hd]|Hd].
  - apply is_name_inv in Hd as (Hs & _ & _ & Hc). now split.
  - apply String.eqb_eq in Hd as ->. split; [reflexivity|].
    now exists "."%char, "".
  - apply String.eqb_eq in Hd as ->. split; [reflexivity|].
    now exists "."%char, ".".
Qed.

Lemma name_is_step d : is_name d = true -> is_step d = true.
Proof. unfold is_step. now intros ->. Qed.

Lemma names_are_steps l :
  forallb is_name l = true -> forallb is_step l = true.
Proof.
  induction l as [|d l IH]; [reflexivity|]. cbn [forallb].
  rewrite !andb_true_iff. intros [Hd Hl].
  split; [now apply name_is_step|now apply IH].
Qed.

Lemma steps_no_sep l :
  forallb is_step l = true -> forallb no_sep l = true.
Proof.
  induction l as [|d l IH]; [reflexivity|]. cbn [forallb].
  rewrite !andb_true_iff. intros [Hd Hl]. split; [|now apply IH].
  now apply is_step_inv in Hd.
Qed.

Lemma concat_steps_head l :
  forallb is_step l = true ->
  l = [] \/ exists c s, String.concat "/" l = String c s
                        /\ Ascii.eqb c posixpath.sep = false.
Proof.
  intros Hl. destruct l as [|d l]; [now left|right]. cbn [forallb] in Hl.
  apply andb_true_iff in Hl as [Hd _].
  apply is_step_inv in Hd as (_ & c & d' & -> & Hc).
  destruct l; cbn [String.concat append]; eauto.
Qed.

Lemma removelast_names l :
  forallb is_name l = true -> forallb is_name (removelast l) = true.
Proof.
  induction l as [|d l IH]; [reflexivity|]. cbn [forallb removelast].
  rewrite andb_true_iff. intros [Hd Hl].
  destruct l as [|d' l]; [reflexivity|].
  cbn [forallb] in *. rewrite Hd. now apply IH.
Qed.

Lemma last_name l :
  forallb is_name l = true -> String.eqb (last l "") ".." = false.
Proof.
  induction l as [|d l IH]; [reflexivity|]. cbn [forallb last].
  rewrite andb_true_iff. intros [Hd Hl].
  destruct l as [|d' l]; [|now apply IH].
  apply is_name_inv in Hd as (_ & _ & Hdots & _).
  now apply String.eqb_neq.
Qed.

(** On an absolute path, one turn of the loop of [normpath] follows the
    component. *)
Lemma normpath_step_walk acc d :
  forallb is_name acc = true -> is_step d = true ->
  posixpath.normpath_step 1 acc d = walk acc d
  /\ forallb is_name (walk acc d) = true.
Proof.
  intros Hacc Hd. unfold is_step in Hd. rewrite !orb_true_iff in Hd.
  destruct Hd as [[Hd|Hd]|Hd].
  - rewrite normpath_step_name by assumption.
    pose proof Hd as Hn.
    apply is_name_inv in Hd as (_ & Hdot & Hdots & _).
    apply String.eqb_neq in Hdot, Hdots. unfold walk. rewrite Hdot, Hdots.
    split; [reflexivity|].
    rewrite forallb_app, Hacc. cbn [forallb]. now rewrite Hn.
  - apply String.eqb_eq in Hd as ->. now split.
  - apply String.eqb_eq in Hd as ->.
    unfold posixpath.normpath_step, walk.
    cbn [String.eqb Ascii.eqb Bool.eqb orb negb andb Nat.eqb].
    rewrite (last_name acc Hacc), andb_false_r.
    split; [reflexivity|now apply removelast_names].
Qed.

Lemma fold_normpath_step_walk l acc :
  forallb is_name acc = true -> forallb is_step l = true ->
  fold_left (posixpath.normpath_step 1) l acc = resolve acc l
  /\ forallb is_name (resolve acc l) = true.
Proof.
  unfold resolve. revert acc. induction l as [|d l IH]; intros acc Hacc Hl.
  - now split.
  - cbn [forallb] in Hl. apply andb_true_iff in Hl as [Hd Hl].
    cbn [fold_left].
    destruct (normpath_step_walk acc d Hacc Hd) as [-> Hw].
    now apply IH.
Qed.

Lemma resolve_names l acc :
  forallb is_name l = true -> resolve acc l = (acc ++ l)%list.
Proof.
  unfold resolve. revert acc. induction l as [|d l IH]; intros acc Hl.
  - now rewrite app_nil_r.
  - cbn [forallb] in Hl. apply andb_true_iff in Hl as [Hd Hl].
    cbn [fold_left]. rewrite IH by assumption.
    apply is_name_inv in Hd as (_ & Hdot & Hdots & _).
    apply String.eqb_neq in Hdot, Hdots. unfold walk. rewrite Hdot, Hdots.
    now rewrite <- app_assoc.
Qed.

Lemma resolve_app from l1 l2 :
  resolve from (l1 ++ l2) = resolve (resolve from l1) l2.
Proof. apply fold_left_app. Qed.

Lemma split_concat_steps l :
  forallb is_step l = true ->
  fold_left (posixpath.normpath_step 1) (posixpath.split (String.concat "/" l)) []
  = resolve [] l.
Proof.
  intros Hl. destruct (list_snoc l) as [->|(l' & x & ->)]; [reflexivity|].
  rewrite concat_snoc.
  pose proof (steps_no_sep _ Hl) as Hs. rewrite forallb_app in Hs.
  apply andb_true_iff in Hs as [Hs1 Hs2]. cbn [forallb] in Hs2.
  rewrite andb_true_r in Hs2.
  rewrite split_slashed by assumption.
  now apply fold_normpath_step_walk.
Qed.

(** [normpath] follows the components of an absolute path. *)
Lemma normpath_render_steps l :
  forallb is_step l = true ->
  posixpath.normpath (render l) = render (resolve [] l).
Proof.
  intros Hl. unfold posixpath.normpath, render, startswith.
  cbn [append String.eqb Ascii.eqb Bool.eqb andb].
  assert (Hp : String.prefix "//" (String "/" (String.concat "/" l)) = false).
  { destruct (concat_steps_head l Hl) as [->|(c & s & -> & Hc)];
      [reflexivity|].
    cbn [String.prefix]. destruct (ascii_dec "/" "/"); [|congruence].
    destruct (ascii_dec "/" c) as [E|]; [|reflexivity].
    subst c. discriminate. }
  assert (Hq : String.prefix "/" (String "/" (String.concat "/" l)) = true).
  { cbn [String.prefix]. destruct (ascii_dec "/" "/"); [|congruence].
    now destruct (String.concat "/" l). }
  rewrite Hq, Hp. cbn [andb posixpath.repeat_sep].
  cbn [posixpath.split Ascii.eqb Bool.eqb posixpath.sep fold_left].
  change (posixpath.normpath_step 1 [] "") with (@nil str).
  now rewrite split_concat_steps.
Qed.

Lemma join_render_steps launch (steps : list str) :
  forallb is_name launch = true -> forallb is_step steps = true ->
  steps <> [] ->
  posixpath.isabs (String.concat "/" steps) = false
  /\ posixpath.join (render launch) (String.concat "/" steps)
     = render (launch ++ steps)%list.
Proof.
  intros Hl Hn Hne.
  assert (Hrel : startswith (String.concat "/" steps) "/" = false).
  { destruct (concat_steps_head steps Hn) as [->|(c & s & -> & Hc)];
      [congruence|]. now apply prefix_sep. }
  split; [exact Hrel|].
  unfold posixpath.join. rewrite Hrel. unfold render at 1 2.
  cbn [append String.eqb orb].
  destruct (list_snoc launch) as [->|(l' & d & ->)].
  - reflexivity.
  - rewrite forallb_app in Hl. apply andb_true_iff in Hl as [_ Hd].
    cbn [forallb] in Hd. rewrite andb_true_r in Hd.
    apply is_name_inv in Hd as (Hds & _ & _ & c & d' & -> & _).
    rewrite concat_snoc.
    change (String "/" (slashed l' ++ String c d'))
      with (("/" ++ slashed l') ++ String c d').
    rewrite endswith_app_name by assumption.
    unfold render.
    match goal with
    | |- context [String.concat "/" (?a ++ steps)%list] =>
        rewrite (concat_app a steps), concat_snoc
    end; try assumption.
    + now rewrite !append_assoc.
    + destruct l'; discriminate.
Qed.

(** The directory computed from [__file__], its path holding ['.'] and
    ['..']. *)
Lemma target_resolves launch steps name (absolute : bool) :
  forallb is_name launch = true -> forallb is_step steps = true ->
  is_name name = true ->
  target (render launch)
    (if absolute then render (steps ++ [name])
     else String.concat "/" (steps ++ [name])%list)
  = render (resolve (if absolute then [] else launch) steps).
Proof.
  intros Hl Hs Hn. unfold target.
  assert (Hall : forallb is_step (steps ++ [name]) = true).
  { rewrite forallb_app, Hs. cbn [forallb]. now rewrite name_is_step. }
  destruct absolute.
  - rewrite isabs_render, normpath_render_steps by assumption.
    rewrite resolve_app.
    destruct (fold_normpath_step_walk steps [] eq_refl Hs) as [_ Hr].
    rewrite (resolve_names [name]) by (cbn [forallb]; now rewrite Hn).
    now apply dirname_render_snoc.
  - destruct (join_render_steps launch (steps ++ [name])%list Hl Hall)
      as (Hrel & Hjoin); [destruct steps; discriminate|].
    rewrite Hrel, Hjoin.
    rewrite normpath_render_steps
      by (rewrite forallb_app, Hall; now rewrite names_are_steps).
    rewrite !resolve_app, (resolve_names launch) by assumption.
    cbn [app].
    destruct (fold_normpath_step_walk steps launch Hl Hs) as [_ Hr].
    rewrite (resolve_names [name]) by (cbn [forallb]; now rewrite Hn).
    now apply dirname_render_snoc.
Qed.

End DottedPaths.

Section DottedWorkingDirectory.
Context `{Collaborators}.


End DottedWorkingDirectory.

(** ** Concrete runs of the further properties *)

(** X1, on a request of [Example] no response was started for. *)
Lemma end_headers_succeeds_without_buffer_witness :
  request_version (parsed Example.files "/srv/xrp" Example.get_index)
  <> "HTTP/0.9"
  /\ _headers_buffer (parsed Example.files "/srv/xrp" Example.get_index) = None
  /\ BaseHTTPRequestHandler_end_headers
       (parsed Example.files "/srv/xrp" Example.get_index)
     = Raise (AttributeError "_headers_buffer")
         (parsed Example.files "/srv/xrp" Example.get_index)
  /\ exists h',
      NoCacheHTTPRequestHandler_end_headers
        (parsed Example.files "/srv/xrp" Example.get_index) = Ok tt h'
      /\ wfile h' = "" ++ join_bytes (anti_cache ++ [CRLF])
      /\ _headers_buffer h' = Some [].
Proof.
  apply conj; [discriminate|]. apply conj; [reflexivity|].
  apply (end_headers_succeeds_without_buffer
           (parsed Example.files "/srv/xrp" Example.get_index));
    [discriminate|reflexivity].
Defined.

(** X3, on the same request. *)
Lemma end_headers_twice_witness :
  request_version (parsed Example.files "/srv/xrp" Example.get_index)
  <> "HTTP/0.9"
  /\ exists h',
      (NoCacheHTTPRequestHandler_end_headers ;;
       NoCacheHTTPRequestHandler_end_headers)%py
        (parsed Example.files "/srv/xrp" Example.get_index) = Ok tt h'
      /\ wfile h'
         = "" ++ join_bytes
                   (pending (parsed Example.files "/srv/xrp" Example.get_index)
                    ++ anti_cache ++ [CRLF])
              ++ join_bytes (anti_cache ++ [CRLF]).
Proof.
  apply conj; [discriminate|].
  apply (end_headers_twice
           (parsed Example.files "/srv/xrp" Example.get_index)).
  discriminate.
Defined.








(** X12, on a system whose port 8000 is taken. *)
Lemma socket_is_never_left_open_witness :
  os.sock (Example.launched Example.port_taken) = os.no_socket
  /\ Example.run Example.port_taken []
     = (exited 1, snd (Example.run Example.port_taken []))
  /\ (os.sock (snd (Example.run Example.port_taken [])) = os.closed
      \/ os.sock (snd (Example.run Example.port_taken [])) = os.no_socket).
Proof.
  repeat (apply conj; [vm_compute; reflexivity|]).
  apply (socket_is_never_left_open
           (H := Example.collaborators) []
           (Example.launched Example.port_taken)
           (snd (Example.run Example.port_taken [])) 1);
    vm_compute; reflexivity.
Defined.



